(** * mood_analyst: the mood classifier, the Spotify client and the
      recommend flow, embedded in Rocq

    The development follows the three Go packages of the repository:

    - [mood]    (mood/analyzer.go): the keyword classifier [AnalyzeMood];
    - [spotify] (spotify/client.go): the HTTP client, every operation a
      program over one effect, the HTTP round trip; the token exchange
      ([Authenticate]) and [LoadFromEnv] read the process environment and
      are not part of the development: a client is any record, and it is
      authenticated when its access token is not empty;
    - [agent]   (main.go): [recommendMusic], the flow that chains them
      (the command routing of [ProcessTask] and the start-up in [main] are
      left aside).

    Go strings are byte strings, so they are [string] here (a list of
    [ascii], one per byte).  The functions of package [strings] that read
    the text as UTF-8 and consult the Unicode tables ([ToLower],
    [TrimSpace], [Fields]) are parameters of the development, known on ASCII
    text, where Go computes them byte by byte.  The [float32] fields of a profile only ever
    hold the decimal constants written in the source and are never computed
    with; they are the rationals those literals denote.  [log.Printf] writes
    to the process log, returns nothing and decides nothing, and is left
    out. *)

From Stdlib Require Import String Ascii List Bool Arith ZArith QArith Lia.
From Stdlib Require Import DecimalString.
Import ListNotations.
Close Scope Q_scope.
Open Scope string_scope.

Set Implicit Arguments.

Declare Scope prog_scope.
Delimit Scope prog_scope with prog.

(** ** The parts of Go's [strings] and [fmt] packages the program uses *)

Module strings.

(** ASCII upper-case letters are the bytes 65..90. *)
Definition isUpper (c : ascii) : bool :=
  let n := nat_of_ascii c in (65 <=? n)%nat && (n <=? 90)%nat.

Definition isLower (c : ascii) : bool :=
  let n := nat_of_ascii c in (97 <=? n)%nat && (n <=? 122)%nat.

Definition lowerByte (c : ascii) : ascii :=
  if isUpper c then ascii_of_nat (nat_of_ascii c + 32) else c.

Definition upperByte (c : ascii) : ascii :=
  if isLower c then ascii_of_nat (nat_of_ascii c - 32) else c.

(** ASCII text: every byte is below 128. *)
Fixpoint isASCII (s : string) : bool :=
  match s with
  | EmptyString => true
  | String c rest => (nat_of_ascii c <? 128)%nat && isASCII rest
  end.

(** What [strings.ToLower] returns on ASCII text: the letters A..Z are
    mapped to a..z and every other byte is kept. *)
Fixpoint lowerASCII (s : string) : string :=
  match s with
  | EmptyString => EmptyString
  | String c rest => String (lowerByte c) (lowerASCII rest)
  end.

(** What [strings.ToUpper] returns on ASCII text. *)
Fixpoint upperASCII (s : string) : string :=
  match s with
  | EmptyString => EmptyString
  | String c rest => String (upperByte c) (upperASCII rest)
  end.

Fixpoint HasPrefix (s prefix : string) {struct prefix} : bool :=
  match prefix, s with
  | EmptyString, _ => true
  | String _ _, EmptyString => false
  | String p prefix', String c s' => Ascii.eqb c p && HasPrefix s' prefix'
  end.

(** [strings.Contains s substr]: [substr] occurs in [s] at some offset;
    the empty string occurs in every string. *)
Fixpoint Contains (s substr : string) : bool :=
  HasPrefix s substr ||
  match s with
  | EmptyString => false
  | String _ s' => Contains s' substr
  end.

(** [strings.Title] on ASCII text: the first letter of every word is put
    in upper case, a word being a run of letters, digits and underscores. *)
Definition isSeparator (c : ascii) : bool :=
  let n := nat_of_ascii c in
  negb (isUpper c || isLower c || ((48 <=? n)%nat && (n <=? 57)%nat)
        || (n =? 95)%nat || (128 <=? n)%nat).

Fixpoint TitleFrom (prev : bool) (s : string) : string :=
  match s with
  | EmptyString => EmptyString
  | String c rest =>
      String (if prev then upperByte c else c) (TitleFrom (isSeparator c) rest)
  end.

Definition Title (s : string) : string := TitleFrom true s.

(** [strings.Join elems sep]. *)
Fixpoint Join (elems : list string) (sep : string) : string :=
  match elems with
  | [] => ""
  | [e] => e
  | e :: rest => e ++ sep ++ Join rest sep
  end.

(** The white space of ASCII, Go's [asciiSpace]: tab, line feed, vertical
    tab, form feed, carriage return and space. *)
Definition asciiSpace (c : ascii) : bool :=
  let n := nat_of_ascii c in
  ((9 <=? n)%nat && (n <=? 13)%nat) || (n =? 32)%nat.

Fixpoint trimLeftASCII (s : string) : string :=
  match s with
  | EmptyString => EmptyString
  | String c rest => if asciiSpace c then trimLeftASCII rest else s
  end.

Fixpoint trimRightASCII (s : string) : string :=
  match s with
  | EmptyString => EmptyString
  | String c rest =>
      match trimRightASCII rest with
      | EmptyString =>
          if asciiSpace c then EmptyString else String c EmptyString
      | kept => String c kept
      end
  end.

(** What [strings.TrimSpace] returns on ASCII text: the white space at both
    ends is removed. *)
Definition trimSpaceASCII (s : string) : string :=
  trimRightASCII (trimLeftASCII s).

Fixpoint dropBytes (n : nat) (s : string) : string :=
  match n, s with
  | O, _ => s
  | S n', String _ rest => dropBytes n' rest
  | S _, EmptyString => EmptyString
  end.

(** [strings.TrimPrefix s prefix]: [s] without its leading [prefix], and
    [s] itself when it does not start with it.  It compares bytes. *)
Definition TrimPrefix (s prefix : string) : string :=
  if HasPrefix s prefix then dropBytes (String.length prefix) s else s.

(** What [strings.Fields] returns on ASCII text: the words of [s], that is
    its maximal runs of bytes that are not white space. *)
Fixpoint fieldsASCII (s : string) : list string :=
  match s with
  | EmptyString => []
  | String c rest =>
      if asciiSpace c then fieldsASCII rest
      else
        match rest with
        | EmptyString => [String c EmptyString]
        | String next _ =>
            if asciiSpace next then String c EmptyString :: fieldsASCII rest
            else
              match fieldsASCII rest with
              | word :: words => String c word :: words
              | [] => [String c EmptyString]
              end
        end
  end.

(** The functions of the package that decode the text as UTF-8 and consult
    the Unicode tables.  They are taken as they are in Go, with what the
    program relies on: on text that is ASCII throughout each of them takes
    the byte-wise path of the Go source, which is the function given above,
    and lower-casing what is in lower case already changes nothing. *)
Class Unicode : Type := {
  (** [strings.ToLower] *)
  ToLower : string -> string;
  (** [strings.TrimSpace] *)
  TrimSpace : string -> string;
  (** [strings.Fields] *)
  Fields : string -> list string;
  ToLower_ASCII :
    forall s, isASCII s = true -> ToLower s = lowerASCII s;
  ToLower_ToLower :
    forall s, ToLower (ToLower s) = ToLower s;
  TrimSpace_ASCII :
    forall s, isASCII s = true -> TrimSpace s = trimSpaceASCII s;
  Fields_ASCII :
    forall s, isASCII s = true -> Fields s = fieldsASCII s
}.

End strings.

Module fmt.

(** The verb [%d] on an [int]. *)
Definition Int (n : Z) : string := NilZero.string_of_int (Z.to_int n).

Definition Nat (n : nat) : string := Int (Z.of_nat n).

End fmt.

(** The line feed, written [\n] in the Go literals. *)
Definition LF : string := String (ascii_of_nat 10) EmptyString.

(** A string given by its bytes, for the literals that are not ASCII. *)
Definition bytes (l : list nat) : string :=
  fold_right (fun n s => String (ascii_of_nat n) s) EmptyString l.

(** ** Package mood *)

Module mood.

(** [type MoodProfile struct]. *)
Record MoodProfile : Type := {
  Mood : string;
  Energy : Q;
  Danceability : Q;
  Valence : Q;
  Acousticness : Q;
  SuggestedGenres : list string;
  SearchQueryTerms : string
}.

(** Assignments to one field, [profile.Mood = v] and so on. *)
Definition set_Mood (v : string) (p : MoodProfile) : MoodProfile :=
  {| Mood := v; Energy := Energy p; Danceability := Danceability p;
     Valence := Valence p; Acousticness := Acousticness p;
     SuggestedGenres := SuggestedGenres p;
     SearchQueryTerms := SearchQueryTerms p |}.

Definition set_Energy (v : Q) (p : MoodProfile) : MoodProfile :=
  {| Mood := Mood p; Energy := v; Danceability := Danceability p;
     Valence := Valence p; Acousticness := Acousticness p;
     SuggestedGenres := SuggestedGenres p;
     SearchQueryTerms := SearchQueryTerms p |}.

Definition set_Danceability (v : Q) (p : MoodProfile) : MoodProfile :=
  {| Mood := Mood p; Energy := Energy p; Danceability := v;
     Valence := Valence p; Acousticness := Acousticness p;
     SuggestedGenres := SuggestedGenres p;
     SearchQueryTerms := SearchQueryTerms p |}.

Definition set_Valence (v : Q) (p : MoodProfile) : MoodProfile :=
  {| Mood := Mood p; Energy := Energy p; Danceability := Danceability p;
     Valence := v; Acousticness := Acousticness p;
     SuggestedGenres := SuggestedGenres p;
     SearchQueryTerms := SearchQueryTerms p |}.

Definition set_Acousticness (v : Q) (p : MoodProfile) : MoodProfile :=
  {| Mood := Mood p; Energy := Energy p; Danceability := Danceability p;
     Valence := Valence p; Acousticness := v;
     SuggestedGenres := SuggestedGenres p;
     SearchQueryTerms := SearchQueryTerms p |}.

Definition set_SuggestedGenres (v : list string) (p : MoodProfile)
  : MoodProfile :=
  {| Mood := Mood p; Energy := Energy p; Danceability := Danceability p;
     Valence := Valence p; Acousticness := Acousticness p;
     SuggestedGenres := v;
     SearchQueryTerms := SearchQueryTerms p |}.

Definition set_SearchQueryTerms (v : string) (p : MoodProfile)
  : MoodProfile :=
  {| Mood := Mood p; Energy := Energy p; Danceability := Danceability p;
     Valence := Valence p; Acousticness := Acousticness p;
     SuggestedGenres := SuggestedGenres p;
     SearchQueryTerms := v |}.

(** [p ;> f]: the statement [f] executed on the profile [p]. *)
Local Notation "p ;> f" := (f p) (at level 50, left associativity,
                                  only parsing).

(** [containsAny]: the loop returns at the first term found. *)
Fixpoint containsAny (text : string) (terms : list string) : bool :=
  match terms with
  | [] => false
  | term :: rest =>
      if strings.Contains text term then true else containsAny text rest
  end.

Section Analysis.

Context {unicode : strings.Unicode}.

(** [AnalyzeMood]: six [if] statements in a row, none with an [else];
    each one that fires assigns the seven fields. *)
Definition AnalyzeMood (moodDescription : string) : MoodProfile :=
  let description := strings.ToLower moodDescription in
  let profile :=
    {| Mood := "neutral"; Energy := 0.5; Danceability := 0.5;
       Valence := 0.5; Acousticness := 0.5; SuggestedGenres := [];
       SearchQueryTerms := "" |} in
  let profile :=
    if containsAny description
         ["happy"; "joyful"; "excited"; "energetic"; "upbeat"; "great";
          "fantastic"]
    then profile ;> set_Mood "happy" ;> set_Energy 0.8
           ;> set_Danceability 0.7 ;> set_Valence 0.8
           ;> set_Acousticness 0.3
           ;> set_SuggestedGenres ["pop"; "dance"; "electronic"; "funk"]
           ;> set_SearchQueryTerms "happy upbeat energetic"
    else profile in
  let profile :=
    if containsAny description
         ["sad"; "down"; "depressed"; "lonely"; "blue"; "heartbroken";
          "melancholy"]
    then profile ;> set_Mood "sad" ;> set_Energy 0.3
           ;> set_Danceability 0.2 ;> set_Valence 0.2
           ;> set_Acousticness 0.7
           ;> set_SuggestedGenres ["indie"; "folk"; "soul"; "acoustic"]
           ;> set_SearchQueryTerms "sad emotional soulful"
    else profile in
  let profile :=
    if containsAny description
         ["calm"; "relaxed"; "chill"; "peaceful"; "serene"; "tranquil";
          "zen"]
    then profile ;> set_Mood "relaxed" ;> set_Energy 0.2
           ;> set_Danceability 0.3 ;> set_Valence 0.5
           ;> set_Acousticness 0.8
           ;> set_SuggestedGenres ["ambient"; "lo-fi"; "jazz"; "acoustic"]
           ;> set_SearchQueryTerms "relaxing chill ambient"
    else profile in
  let profile :=
    if containsAny description
         ["pumped"; "energetic"; "motivated"; "fired up"; "adrenaline"]
    then profile ;> set_Mood "energetic" ;> set_Energy 0.9
           ;> set_Danceability 0.8 ;> set_Valence 0.7
           ;> set_Acousticness 0.1
           ;> set_SuggestedGenres ["hip-hop"; "electronic"; "rock"; "metal"]
           ;> set_SearchQueryTerms "energetic powerful intense"
    else profile in
  let profile :=
    if containsAny description
         ["romantic"; "in love"; "loved"; "affectionate"; "passionate"]
    then profile ;> set_Mood "romantic" ;> set_Energy 0.4
           ;> set_Danceability 0.5 ;> set_Valence 0.7
           ;> set_Acousticness 0.6
           ;> set_SuggestedGenres ["soul"; "r&b"; "indie"; "acoustic pop"]
           ;> set_SearchQueryTerms "romantic love passionate"
    else profile in
  let profile :=
    if containsAny description
         ["focused"; "studying"; "concentrating"; "working"; "productive"]
    then profile ;> set_Mood "focused" ;> set_Energy 0.5
           ;> set_Danceability 0.3 ;> set_Valence 0.5
           ;> set_Acousticness 0.5
           ;> set_SuggestedGenres
                ["lo-fi"; "classical"; "ambient"; "instrumental"]
           ;> set_SearchQueryTerms "focus study concentration"
    else profile in
  profile.

End Analysis.

(** [GetMoodParameters]: the four targets, keyed by parameter name. *)
Definition GetMoodParameters (profile : MoodProfile) : list (string * Q) :=
  [("target_energy", Energy profile);
   ("target_danceability", Danceability profile);
   ("target_valence", Valence profile);
   ("target_acousticness", Acousticness profile)].

(** [FormatTrackRecommendation]: the two markers are the UTF-8 bytes of
    the note and the link signs of the source literal. *)
Definition FormatTrackRecommendation
           (trackName artistName spotifyURL : string) : string :=
  bytes [240; 159; 142; 181] ++ " " ++ trackName ++ " by " ++ artistName
    ++ LF ++ "   " ++ bytes [240; 159; 148; 151] ++ " " ++ spotifyURL.

End mood.


(** ** Package spotify *)

Module spotify.

(** A Go [error] is its message. *)
Definition error : Type := string.

(** A pair [(value, err)] of which exactly one is meaningful. *)
Inductive result (A : Type) : Type :=
| Ok (value : A)
| Err (err : error).
Arguments Ok {A} value.
Arguments Err {A} err.

Definition spotifySearchURL : string := "https://api.spotify.com/v1/search".
Definition spotifyAPIURL : string := "https://api.spotify.com/v1".

Record Artist : Type := { ArtistName : string }.

Record ExternalURLs : Type := { Spotify : string }.

Module Track.
Record t : Type := {
  ID : string;
  Name : string;
  Artists : list Artist;
  ExternalURLs : ExternalURLs;
  PreviewURL : string;
  URI : string
}.
End Track.

Module User.
Record t : Type := { ID : string; DisplayName : string }.
End User.

Module Playlist.
Record t : Type := {
  ID : string;
  Name : string;
  ExternalURLs : ExternalURLs
}.
End Playlist.

(** [SearchResult]: the envelope [tracks.items]. *)
Record SearchResult : Type := { Items : list Track.t }.

Record Client : Type := {
  clientID : string;
  clientSecret : string;
  accessToken : string
}.

Definition NewClient (clientID clientSecret : string) : Client :=
  {| clientID := clientID; clientSecret := clientSecret;
     accessToken := "" |}.

(** *** HTTP, as the client sees it *)

(** [url.Values] restricted to what the client does with it: every key is
    set once, to one value.  [Encode] orders by key, so the order in which
    the keys were set is not observable in the Go program. *)
Definition Values : Type := list (string * string).

Fixpoint Values_Set (key value : string) (v : Values) : Values :=
  match v with
  | [] => [(key, value)]
  | (k, x) :: rest =>
      if String.eqb k key then (key, value) :: rest
      else (k, x) :: Values_Set key value rest
  end.

Record Request : Type := {
  Method : string;
  URL : string;
  Header : list (string * string);
  Body : option string
}.

Definition Header_Add (key value : string) (req : Request) : Request :=
  {| Method := Method req; URL := URL req;
     Header := Header req ++ [(key, value)]; Body := Body req |}.

(** What [client.Do(req)] comes back with: an error of the transport, or a
    response with its status code and the bytes of its body. *)
Inductive RoundTrip : Type :=
| TransportError (err : error)
| Response (StatusCode : Z) (body : string).

(** Functions of the Go standard library whose results the client only
    passes on. *)
Class Runtime : Type := {
  (** [url.Values.Encode] *)
  url_Values_Encode : Values -> string;
  (** the error of [url.Parse], which makes [http.NewRequest] fail *)
  url_Parse_error : string -> option error;
  (** [fmt.Sprintf("%v", x)] on a [float32] *)
  fmt_float32 : Q -> string;
  (** [json.Marshal] on a [map[string]string] *)
  json_Marshal_strings : list (string * string) -> result string;
  (** [json.Marshal] on a [map[string][]string] *)
  json_Marshal_lists : list (string * list string) -> result string;
  (** [json.NewDecoder(body).Decode] into each of the four targets *)
  json_Decode_SearchResult : string -> result SearchResult;
  json_Decode_Tracks : string -> result (list Track.t);
  json_Decode_User : string -> result User.t;
  json_Decode_Playlist : string -> result Playlist.t
}.

(** A client operation: it returns, or it sends a request and goes on with
    what came back. *)
Inductive Prog (A : Type) : Type :=
| Ret (a : A)
| Do (req : Request) (k : RoundTrip -> Prog A).
Arguments Ret {A} a.
Arguments Do {A} req k.

Fixpoint bind {A B : Type} (p : Prog A) (f : A -> Prog B) : Prog B :=
  match p with
  | Ret a => f a
  | Do req k => Do req (fun r => bind (k r) f)
  end.

(** The network: what the round trip of a request yields, given the
    requests sent before it (the latest first). *)
Definition Network : Type := list Request -> Request -> RoundTrip.

(** Running a program from the history [h]: the value it returns and the
    history then. *)
Fixpoint exec {A : Type} (net : Network) (p : Prog A) (h : list Request)
  : A * list Request :=
  match p with
  | Ret a => (a, h)
  | Do req k => exec net (k (net h req)) (req :: h)
  end.

Notation "x <- p ;; q" := (bind p (fun x => q))
  (at level 61, p at next level, right associativity) : prog_scope.

(** *** The operations of the client *)

Section Operations.

Context {rt : Runtime}.
Local Open Scope prog_scope.

(** [http.NewRequest]: it fails when the URL does not parse. *)
Definition http_NewRequest (method url : string) (body : option string)
  : result Request :=
  match url_Parse_error url with
  | Some err => Err err
  | None =>
      Ok {| Method := method; URL := url; Header := []; Body := body |}
  end.

(** [SearchTracks] *)
Definition SearchTracks (c : Client) (query : string) (limit : Z)
  : Prog (result (list Track.t)) :=
  if String.eqb (accessToken c) "" then Ret (Err "not authenticated")
  else
    let params := [] in
    let params := Values_Set "q" query params in
    let params := Values_Set "type" "track" params in
    let params := Values_Set "limit" (fmt.Int limit) params in
    let searchURL := spotifySearchURL ++ "?" ++ url_Values_Encode params in
    match http_NewRequest "GET" searchURL None with
    | Err err => Ret (Err ("failed to create search request: " ++ err))
    | Ok req =>
        let req :=
          Header_Add "Authorization" ("Bearer " ++ accessToken c) req in
        resp <- Do req Ret ;;
        match resp with
        | TransportError err =>
            Ret (Err ("failed to search tracks: " ++ err))
        | Response StatusCode body =>
            if negb (StatusCode =? 200)%Z then
              Ret (Err ("search failed with status "
                          ++ fmt.Int StatusCode ++ ": " ++ body))
            else
              match json_Decode_SearchResult body with
              | Err err =>
                  Ret (Err ("failed to decode search response: " ++ err))
              | Ok result => Ret (Ok (Items result))
              end
        end
    end.

(** [GetRecommendations] *)
Definition GetRecommendations (c : Client)
           (seedTracks seedGenres : list string)
           (moodParams : list (string * Q)) (limit : Z)
  : Prog (result (list Track.t)) :=
  if String.eqb (accessToken c) "" then Ret (Err "not authenticated")
  else
    let params := [] in
    let params :=
      if (0 <? length seedTracks)%nat
      then Values_Set "seed_tracks" (strings.Join seedTracks ",") params
      else params in
    let params :=
      if (0 <? length seedGenres)%nat
      then Values_Set "seed_genres" (strings.Join seedGenres ",") params
      else params in
    let params :=
      fold_left (fun params kv =>
                   Values_Set (fst kv) (fmt_float32 (snd kv)) params)
                moodParams params in
    let params := Values_Set "limit" (fmt.Int limit) params in
    let recURL :=
      spotifyAPIURL ++ "/recommendations?" ++ url_Values_Encode params in
    match http_NewRequest "GET" recURL None with
    | Err err =>
        Ret (Err ("failed to create recommendations request: " ++ err))
    | Ok req =>
        let req :=
          Header_Add "Authorization" ("Bearer " ++ accessToken c) req in
        resp <- Do req Ret ;;
        match resp with
        | TransportError err =>
            Ret (Err ("failed to get recommendations: " ++ err))
        | Response StatusCode body =>
            if negb (StatusCode =? 200)%Z then
              let bodyStr := body in
              let bodyStr :=
                if String.eqb bodyStr "" then "(empty response)"
                else bodyStr in
              Ret (Err ("recommendations failed with status "
                          ++ fmt.Int StatusCode ++ ": " ++ bodyStr
                          ++ " (URL: " ++ recURL ++ ")"))
            else
              match json_Decode_Tracks body with
              | Err err =>
                  Ret (Err ("failed to decode recommendations response: "
                              ++ err))
              | Ok tracks => Ret (Ok tracks)
              end
        end
    end.

(** [GetCurrentUser] *)
Definition GetCurrentUser (c : Client) : Prog (result User.t) :=
  if String.eqb (accessToken c) "" then Ret (Err "not authenticated")
  else
    match http_NewRequest "GET" (spotifyAPIURL ++ "/me") None with
    | Err err => Ret (Err ("failed to create user request: " ++ err))
    | Ok req =>
        let req :=
          Header_Add "Authorization" ("Bearer " ++ accessToken c) req in
        resp <- Do req Ret ;;
        match resp with
        | TransportError err => Ret (Err ("failed to get user: " ++ err))
        | Response StatusCode body =>
            if negb (StatusCode =? 200)%Z then
              Ret (Err ("get user failed with status "
                          ++ fmt.Int StatusCode ++ ": " ++ body))
            else
              match json_Decode_User body with
              | Err err =>
                  Ret (Err ("failed to decode user response: " ++ err))
              | Ok user => Ret (Ok user)
              end
        end
    end.

(** [CreatePlaylist] *)
Definition CreatePlaylist (c : Client) (userID name description : string)
  : Prog (result Playlist.t) :=
  if String.eqb (accessToken c) "" then Ret (Err "not authenticated")
  else
    let data :=
      [("name", name); ("description", description);
       ("public", "false")] in
    match json_Marshal_strings data with
    | Err err => Ret (Err ("failed to marshal playlist data: " ++ err))
    | Ok jsonData =>
        let url := spotifyAPIURL ++ "/users/" ++ userID ++ "/playlists" in
        match http_NewRequest "POST" url (Some jsonData) with
        | Err err =>
            Ret (Err ("failed to create playlist request: " ++ err))
        | Ok req =>
            let req :=
              Header_Add "Authorization" ("Bearer " ++ accessToken c)
                         req in
            let req := Header_Add "Content-Type" "application/json" req in
            resp <- Do req Ret ;;
            match resp with
            | TransportError err =>
                Ret (Err ("failed to create playlist: " ++ err))
            | Response StatusCode body =>
                if negb (StatusCode =? 201)%Z
                   && negb (StatusCode =? 200)%Z then
                  Ret (Err ("create playlist failed with status "
                              ++ fmt.Int StatusCode ++ ": " ++ body))
                else
                  match json_Decode_Playlist body with
                  | Err err =>
                      Ret (Err ("failed to decode playlist response: "
                                  ++ err))
                  | Ok playlist => Ret (Ok playlist)
                  end
            end
        end
    end.

(** [AddTracksToPlaylist]: [None] is the [nil] error. *)
Definition AddTracksToPlaylist (c : Client) (playlistID : string)
           (trackURIs : list string) : Prog (option error) :=
  if String.eqb (accessToken c) "" then Ret (Some "not authenticated")
  else
    let data := [("uris", trackURIs)] in
    match json_Marshal_lists data with
    | Err err => Ret (Some ("failed to marshal tracks data: " ++ err))
    | Ok jsonData =>
        let url :=
          spotifyAPIURL ++ "/playlists/" ++ playlistID ++ "/tracks" in
        match http_NewRequest "POST" url (Some jsonData) with
        | Err err =>
            Ret (Some ("failed to create add tracks request: " ++ err))
        | Ok req =>
            let req :=
              Header_Add "Authorization" ("Bearer " ++ accessToken c)
                         req in
            let req := Header_Add "Content-Type" "application/json" req in
            resp <- Do req Ret ;;
            match resp with
            | TransportError err =>
                Ret (Some ("failed to add tracks: " ++ err))
            | Response StatusCode body =>
                if negb (StatusCode =? 201)%Z
                   && negb (StatusCode =? 200)%Z then
                  Ret (Some ("add tracks failed with status "
                               ++ fmt.Int StatusCode ++ ": " ++ body))
                else Ret None
            end
        end
    end.

End Operations.

(** *** Start-up: the credentials and the token exchange *)

Definition spotifyAuthURL : string := "https://accounts.spotify.com/api/token".

(** The process environment, as [os.Getenv] reads it: a variable that is
    not set reads as the empty string. *)
Definition Environ : Type := string -> string.

(** What the token exchange needs of the standard library besides
    [Runtime]. *)
Class AuthRuntime : Type := {
  (** [base64.StdEncoding.EncodeToString] on the bytes of a string *)
  base64_EncodeToString : string -> string;
  (** [json.NewDecoder(body).Decode] into a [map[string]interface{}]; the
      map is kept as the lookup [result[key].(string)], which is some
      string exactly when the key is there and holds a string *)
  json_Decode_object : string -> result (string -> option string)
}.

Section Startup.

Context {rt : Runtime} {art : AuthRuntime}.
Local Open Scope prog_scope.

(** [Authenticate]: the client as the call leaves it, and the error.  The
    token is assigned on the last line only. *)
Definition Authenticate (getenv : Environ) (c : Client)
  : Prog (Client * option error) :=
  let auth :=
    base64_EncodeToString (clientID c ++ ":" ++ clientSecret c) in
  let data := [] in
  let refreshToken := getenv "SPOTIFY_REFRESH_TOKEN" in
  let data :=
    if negb (String.eqb refreshToken "") then
      let data := Values_Set "grant_type" "refresh_token" data in
      Values_Set "refresh_token" refreshToken data
    else Values_Set "grant_type" "client_credentials" data in
  match http_NewRequest "POST" spotifyAuthURL
                        (Some (url_Values_Encode data)) with
  | Err err => Ret (c, Some ("failed to create auth request: " ++ err))
  | Ok req =>
      let req := Header_Add "Authorization" ("Basic " ++ auth) req in
      let req :=
        Header_Add "Content-Type" "application/x-www-form-urlencoded" req in
      resp <- Do req Ret ;;
      match resp with
      | TransportError err =>
          Ret (c, Some ("failed to authenticate: " ++ err))
      | Response StatusCode body =>
          if negb (StatusCode =? 200)%Z then
            Ret (c, Some ("auth failed with status " ++ fmt.Int StatusCode
                            ++ ": " ++ body))
          else
            match json_Decode_object body with
            | Err err =>
                Ret (c, Some ("failed to decode auth response: " ++ err))
            | Ok result =>
                match result "access_token" with
                | None => Ret (c, Some "access token not found in response")
                | Some accessToken =>
                    Ret ({| clientID := clientID c;
                            clientSecret := clientSecret c;
                            accessToken := accessToken |}, None)
                end
            end
      end
  end.

End Startup.

(** [LoadFromEnv] *)
Definition LoadFromEnv (getenv : Environ) : result Client :=
  let clientID := getenv "SPOTIFY_CLIENT_ID" in
  let clientSecret := getenv "SPOTIFY_CLIENT_SECRET" in
  if String.eqb clientID "" || String.eqb clientSecret "" then
    Err ("SPOTIFY_CLIENT_ID and SPOTIFY_CLIENT_SECRET environment "
           ++ "variables are required")
  else Ok (NewClient clientID clientSecret).

End spotify.

(** ** Package main *)

Module agent.

Import spotify.

(** [MoodalystAgent]; the mood analyzer is an empty struct and its method
    [AnalyzeMood] does not read it. *)
Record MoodalystAgent : Type := {
  spotifyClient : Client;
  moodAnalyzer : unit
}.

(** The first artist's name, or ["Unknown"] (lines 132-135). *)
Definition artistNameOf (track : Track.t) : string :=
  let artistName := "Unknown" in
  if (0 <? length (Track.Artists track))%nat
  then match Track.Artists track with
       | first :: _ => ArtistName first
       | [] => artistName
       end
  else artistName.

(** The loop over the search results that collects the seeds
    (lines 77-83). *)
Definition collectSeedTrackIDs (tracks : list Track.t) : list string :=
  fold_left (fun seedTrackIDs t =>
               if negb (String.eqb (Track.ID t) "")
               then (seedTrackIDs ++ [Track.ID t])%list
               else seedTrackIDs)
            tracks [].

(** The genres that fill up the seeds (lines 87-97). *)
Definition fillSeedGenres (moodProfile : mood.MoodProfile)
           (seedTrackIDs : list string) : list string :=
  let seedGenres := [] in
  if (length seedTrackIDs <? 5)%nat then
    let remaining := (5 - length seedTrackIDs)%nat in
    if (0 <? length (mood.SuggestedGenres moodProfile))%nat then
      if (remaining <? length (mood.SuggestedGenres moodProfile))%nat
      then firstn remaining (mood.SuggestedGenres moodProfile)
      else mood.SuggestedGenres moodProfile
    else seedGenres
  else seedGenres.

(** One turn of the loop that writes the response (lines 131-141): the
    state is the index, the response so far and the URIs so far. *)
Definition responseStep (st : nat * string * list string) (track : Track.t)
  : nat * string * list string :=
  let '(i, response, trackURIs) := st in
  let artistName := artistNameOf track in
  let recommendation :=
    mood.FormatTrackRecommendation
      (Track.Name track) artistName (Spotify (Track.ExternalURLs track)) in
  let response :=
    response ++ fmt.Nat (i + 1) ++ ". " ++ recommendation ++ LF in
  let trackURIs :=
    if negb (String.eqb (Track.URI track) "")
    then (trackURIs ++ [Track.URI track])%list
    else trackURIs in
  (S i, response, trackURIs).

(** The response and the playlist candidates (lines 127-141). *)
Definition buildResponse (moodProfile : mood.MoodProfile)
           (tracks : list Track.t) : string * list string :=
  let response :=
    "Based on your mood (" ++ mood.Mood moodProfile
      ++ "), here are some song recommendations:" ++ LF ++ LF in
  let '(_, response, trackURIs) :=
    fold_left responseStep tracks (0%nat, response, []) in
  (response, trackURIs).

(** The note on the new playlist (line 154); its marker is the six bytes
    the source file has there. *)
Definition playlistNote (playlist : Playlist.t) : string :=
  LF ++ bytes [195; 162; 197; 147; 194; 168]
     ++ " I've also created a playlist for you: "
     ++ Spotify (Playlist.ExternalURLs playlist) ++ LF.

Section Flow.

Context {rt : Runtime} {unicode : strings.Unicode}.
Local Open Scope prog_scope.

(** The playlist, when the user can be reached (lines 143-166). *)
Definition tryPlaylist (a : MoodalystAgent) (moodProfile : mood.MoodProfile)
           (response : string) (trackURIs : list string)
  : Prog (string * option error) :=
  user <- GetCurrentUser (spotifyClient a) ;;
  match user with
  | Ok user =>
      let playlistName :=
        "Mood Analyst: " ++ strings.Title (mood.Mood moodProfile)
          ++ " Vibes" in
      let description :=
        "A playlist curated for your " ++ mood.Mood moodProfile
          ++ " mood." in
      playlist <- CreatePlaylist (spotifyClient a) (User.ID user)
                                 playlistName description ;;
      match playlist with
      | Ok playlist =>
          err <- AddTracksToPlaylist (spotifyClient a)
                                     (Playlist.ID playlist) trackURIs ;;
          match err with
          | None => Ret (response ++ playlistNote playlist, None)
          | Some _ => Ret (response, None)
          end
      | Err _ => Ret (response, None)
      end
  | Err _ => Ret (response, None)
  end.

(** From the complete track list to the end (lines 126-166). *)
Definition respond (a : MoodalystAgent) (moodProfile : mood.MoodProfile)
           (tracks : list Track.t) : Prog (string * option error) :=
  let '(response, trackURIs) := buildResponse moodProfile tracks in
  tryPlaylist a moodProfile response trackURIs.

(** What follows the call of [GetRecommendations] (lines 108-166). *)
Definition afterRecommendations (a : MoodalystAgent)
           (moodProfile : mood.MoodProfile) (query : string)
           (tracks : list Track.t) (recs : result (list Track.t))
  : Prog (string * option error) :=
  match recs with
  | Ok recs => respond a moodProfile (tracks ++ recs)%list
  | Err _ =>
      let fallbackQuery := query ++ " " ++ mood.Mood moodProfile in
      moreTracks <- SearchTracks (spotifyClient a) fallbackQuery 15 ;;
      match moreTracks with
      | Ok moreTracks =>
          if (0 <? length moreTracks)%nat
          then respond a moodProfile (tracks ++ moreTracks)%list
          else respond a moodProfile tracks
      | Err _ => respond a moodProfile tracks
      end
  end.

(** What follows a search that found something (lines 76-166). *)
Definition recommendFrom (a : MoodalystAgent)
           (moodProfile : mood.MoodProfile) (query : string)
           (tracks : list Track.t) : Prog (string * option error) :=
  let seedTrackIDs := collectSeedTrackIDs tracks in
  let seedGenres := fillSeedGenres moodProfile seedTrackIDs in
  let moodParams :=
    [("target_energy", mood.Energy moodProfile);
     ("target_danceability", mood.Danceability moodProfile);
     ("target_valence", mood.Valence moodProfile);
     ("target_acousticness", mood.Acousticness moodProfile)] in
  recs <- GetRecommendations (spotifyClient a) seedTrackIDs seedGenres
                             moodParams 15 ;;
  afterRecommendations a moodProfile query tracks recs.

(** [recommendMusic]: the text and the error, which is [nil] on every
    path. *)
Definition recommendMusic (a : MoodalystAgent) (moodDescription : string)
  : Prog (string * option error) :=
  let moodProfile := mood.AnalyzeMood moodDescription in
  let query := mood.SearchQueryTerms moodProfile in
  let query := if String.eqb query "" then moodDescription else query in
  tracks <- SearchTracks (spotifyClient a) query 5 ;;
  match tracks with
  | Err _ =>
      Ret ("I detected your mood as '" ++ mood.Mood moodProfile
             ++ "', but I couldn't fetch recommendations right now. "
             ++ "Try again later!", None)
  | Ok tracks =>
      if (length tracks =? 0)%nat then
        Ret ("I understand you're feeling " ++ mood.Mood moodProfile
               ++ ", but I couldn't find any matching songs right now.",
             None)
      else recommendFrom a moodProfile query tracks
  end.

End Flow.

Section Tasks.

Context {rt : Runtime} {unicode : strings.Unicode}.

(** [ProcessTask]: the task is trimmed, loses one leading slash, is put in
    lower case and cut into words; the first word is the command. *)
Definition ProcessTask (a : MoodalystAgent) (task : string)
  : Prog (string * option error) :=
  let task := strings.TrimSpace task in
  let task := strings.TrimPrefix task "/" in
  let taskLower := strings.ToLower task in
  let parts := strings.Fields taskLower in
  match parts with
  | [] =>
      Ret ("No command provided. Available commands: mood_analyzer", None)
  | command :: args =>
      if String.eqb command "mood_analyzer" then
        if (length args =? 0)%nat then
          Ret ("Please describe your mood. "
                 ++ "Example: 'mood_analyzer I feel happy and energetic'",
               None)
        else
          let moodDescription := strings.Join args " " in
          recommendMusic a moodDescription
      else
        Ret ("Unknown command '" ++ command
               ++ "'. Available commands: mood_analyzer", None)
  end.

End Tasks.

End agent.

(** ** The classifier as the specification words it *)

Module Spec.

Import mood.

(** A category rule: its keyword set and the profile it stands for. *)
Record Rule : Type := { keywords : list string; outcome : MoodProfile }.

Definition neutral : MoodProfile :=
  {| Mood := "neutral"; Energy := 0.5; Danceability := 0.5; Valence := 0.5;
     Acousticness := 0.5; SuggestedGenres := []; SearchQueryTerms := "" |}.

Definition happy : Rule :=
  {| keywords := ["happy"; "joyful"; "excited"; "energetic"; "upbeat";
                  "great"; "fantastic"];
     outcome :=
       {| Mood := "happy"; Energy := 0.8; Danceability := 0.7;
          Valence := 0.8; Acousticness := 0.3;
          SuggestedGenres := ["pop"; "dance"; "electronic"; "funk"];
          SearchQueryTerms := "happy upbeat energetic" |} |}.

Definition sad : Rule :=
  {| keywords := ["sad"; "down"; "depressed"; "lonely"; "blue";
                  "heartbroken"; "melancholy"];
     outcome :=
       {| Mood := "sad"; Energy := 0.3; Danceability := 0.2;
          Valence := 0.2; Acousticness := 0.7;
          SuggestedGenres := ["indie"; "folk"; "soul"; "acoustic"];
          SearchQueryTerms := "sad emotional soulful" |} |}.

Definition relaxed : Rule :=
  {| keywords := ["calm"; "relaxed"; "chill"; "peaceful"; "serene";
                  "tranquil"; "zen"];
     outcome :=
       {| Mood := "relaxed"; Energy := 0.2; Danceability := 0.3;
          Valence := 0.5; Acousticness := 0.8;
          SuggestedGenres := ["ambient"; "lo-fi"; "jazz"; "acoustic"];
          SearchQueryTerms := "relaxing chill ambient" |} |}.

Definition energetic : Rule :=
  {| keywords := ["pumped"; "energetic"; "motivated"; "fired up";
                  "adrenaline"];
     outcome :=
       {| Mood := "energetic"; Energy := 0.9; Danceability := 0.8;
          Valence := 0.7; Acousticness := 0.1;
          SuggestedGenres := ["hip-hop"; "electronic"; "rock"; "metal"];
          SearchQueryTerms := "energetic powerful intense" |} |}.

Definition romantic : Rule :=
  {| keywords := ["romantic"; "in love"; "loved"; "affectionate";
                  "passionate"];
     outcome :=
       {| Mood := "romantic"; Energy := 0.4; Danceability := 0.5;
          Valence := 0.7; Acousticness := 0.6;
          SuggestedGenres := ["soul"; "r&b"; "indie"; "acoustic pop"];
          SearchQueryTerms := "romantic love passionate" |} |}.

Definition focused : Rule :=
  {| keywords := ["focused"; "studying"; "concentrating"; "working";
                  "productive"];
     outcome :=
       {| Mood := "focused"; Energy := 0.5; Danceability := 0.3;
          Valence := 0.5; Acousticness := 0.5;
          SuggestedGenres := ["lo-fi"; "classical"; "ambient";
                              "instrumental"];
          SearchQueryTerms := "focus study concentration" |} |}.

(** The table, in its order. *)
Definition rules : list Rule :=
  [happy; sad; relaxed; energetic; romantic; focused].

Definition allKeywords : list string := flat_map keywords rules.

Definition matches (text : string) (r : Rule) : bool :=
  existsb (strings.Contains text) (keywords r).

(** The rules applied in table order, a matching rule replacing the whole
    profile. *)
Definition applyRules (text : string) : MoodProfile :=
  fold_left (fun profile r => if matches text r then outcome r else profile)
            rules neutral.

(** The last rule of the table that matches, if one does. *)
Definition lastMatch (text : string) : option Rule :=
  find (matches text) (rev rules).

(** Two bytes that are the same up to the case of an ASCII letter, and
    two texts that are so byte by byte. *)
Definition sameLetter (a b : ascii) : Prop :=
  b = a \/ b = strings.upperByte a \/ b = strings.lowerByte a.

Inductive CaseVariant : string -> string -> Prop :=
| CaseVariant_nil : CaseVariant "" ""
| CaseVariant_cons (a b : ascii) (s t : string) :
    sameLetter a b -> CaseVariant s t ->
    CaseVariant (String a s) (String b t).

(** The long s, U+017F, in UTF-8.  It is a lower-case letter, so
    lower-casing keeps it, and its upper-case form is the ASCII letter S. *)
Definition longS : string := bytes [197; 191].

(** Case variants when letters outside ASCII count too; of these only the
    long s and its upper-case form are listed. *)
Inductive UnicodeCaseVariant : string -> string -> Prop :=
| UnicodeCaseVariant_ASCII (s t : string) :
    CaseVariant s t -> UnicodeCaseVariant s t
| UnicodeCaseVariant_longS (s t : string) :
    UnicodeCaseVariant s t ->
    UnicodeCaseVariant (longS ++ s) (String "S" t).

End Spec.

(** ** The response text as the specification words it *)

Module Layout.

Import spotify.

(** The artist a track is shown with: the first of its list, and
    ["Unknown"] when the list is empty. *)
Definition displayedArtist (track : Track.t) : string :=
  match hd_error (Track.Artists track) with
  | Some first => ArtistName first
  | None => "Unknown"
  end.

Definition header (moodProfile : mood.MoodProfile) : string :=
  "Based on your mood (" ++ mood.Mood moodProfile
    ++ "), here are some song recommendations:" ++ LF ++ LF.

(** The numbered line of one track, written out: the number, the note
    sign, the title, " by ", the artist shown, and on a line of its own the
    link sign and the link. *)
Definition trackLine (numbered : nat * Track.t) : string :=
  fmt.Nat (fst numbered) ++ ". "
    ++ bytes [240; 159; 142; 181] ++ " " ++ Track.Name (snd numbered)
    ++ " by " ++ displayedArtist (snd numbered) ++ LF
    ++ "   " ++ bytes [240; 159; 148; 151] ++ " "
    ++ Spotify (Track.ExternalURLs (snd numbered)) ++ LF.

(** The header, then one line per track, numbered from 1. *)
Definition responseText (moodProfile : mood.MoodProfile)
           (tracks : list Track.t) : string :=
  header moodProfile
    ++ String.concat ""
         (map trackLine (combine (seq 1 (length tracks)) tracks)).

End Layout.

(** ** The two quantities of the flow the specification names *)

Module Flow.

(** The query of the first search: the search terms of the profile, and the
    description itself when the profile has none (lines 61-64). *)
Definition firstQuery {unicode : strings.Unicode} (moodDescription : string)
  : string :=
  if String.eqb (mood.SearchQueryTerms (mood.AnalyzeMood moodDescription)) ""
  then moodDescription
  else mood.SearchQueryTerms (mood.AnalyzeMood moodDescription).

(** How many genre seeds go with [count] seed tracks when the profile
    suggests [available] genres. *)
Definition genreSeedCount (count available : nat) : nat :=
  if (count <? 5)%nat then Nat.min (5 - count) available else 0%nat.

End Flow.

(** ** What a program puts on the wire *)

Module Wire.

Import spotify.

(** The program [p], run on any network from any history, sends at most
    [n] requests, and each request it sends satisfies [P]. *)
Definition Sends {A : Type} (P : Request -> Prop) (n : nat) (p : Prog A)
  : Prop :=
  forall (net : Network) (h : list Request),
  exists sent,
    snd (exec net p h) = (sent ++ h)%list /\
    (length sent <= n)%nat /\
    Forall P sent.

(** The request carries the token of the client as a bearer token. *)
Definition Bearer (c : Client) (req : Request) : Prop :=
  In ("Authorization", "Bearer " ++ accessToken c) (Header req).

End Wire.

(** ** A stand-in for the runtime and the network, to run the programs *)

Module Sample.

Import spotify.

(** The functions of [strings.Unicode] computed byte by byte on every text.
    This is what Go computes on ASCII text, and also on text whose bytes
    above 127 spell characters that are neither upper-case letters nor
    white space, such as the long s. *)
#[global, refine] Instance byteWise : strings.Unicode := {|
  strings.ToLower := strings.lowerASCII;
  strings.TrimSpace := strings.trimSpaceASCII;
  strings.Fields := strings.fieldsASCII
|}.
Proof.
  - reflexivity.
  - intros s. induction s as [|c s IH]; [reflexivity|]. simpl.
    rewrite IH. f_equal.
    destruct c as [[] [] [] [] [] [] [] []]; reflexivity.
  - reflexivity.
  - reflexivity.
Defined.

Fixpoint splitOn (sep : ascii) (s : string) : list string :=
  match s with
  | EmptyString => [EmptyString]
  | String c rest =>
      if Ascii.eqb c sep then EmptyString :: splitOn sep rest
      else match splitOn sep rest with
           | [] => [String c EmptyString]
           | w :: ws => String c w :: ws
           end
  end.

(** A track known by its identifier alone. *)
Definition trackOf (id : string) : Track.t :=
  {| Track.ID := id; Track.Name := "Song " ++ id; Track.Artists := [];
     Track.ExternalURLs :=
       {| Spotify := "https://open.spotify.com/track/" ++ id |};
     Track.PreviewURL := ""; Track.URI := "spotify:track:" ++ id |}.

(** Bodies are read in a toy format: identifiers separated by commas, and
    [[]] for no track at all; an empty body does not decode. *)
Definition decodeTracks (body : string) : result (list Track.t) :=
  if String.eqb body "" then Err "EOF"
  else if String.eqb body "[]" then Ok []
  else Ok (map trackOf (splitOn "," body)).

Definition decodeSearchResult (body : string) : result SearchResult :=
  match decodeTracks body with
  | Ok items => Ok {| Items := items |}
  | Err err => Err err
  end.

Definition decodeUser (body : string) : result User.t :=
  if String.eqb body "" then Err "EOF"
  else Ok {| User.ID := body; User.DisplayName := body |}.

Definition decodePlaylist (body : string) : result Playlist.t :=
  if String.eqb body "" then Err "EOF"
  else Ok {| Playlist.ID := body; Playlist.Name := body;
             Playlist.ExternalURLs :=
               {| Spotify := "https://open.spotify.com/playlist/" ++ body |}
          |}.

Definition quote (s : string) : string :=
  String (ascii_of_nat 34) s ++ String (ascii_of_nat 34) "".

#[global] Instance runtime : Runtime := {|
  url_Values_Encode v :=
    strings.Join (map (fun kv => fst kv ++ "=" ++ snd kv) v) "&";
  url_Parse_error url :=
    if strings.Contains url LF
    then Some "net/url: invalid control character in URL" else None;
  fmt_float32 q :=
    if Pos.eqb (Qden q) 10 then "0." ++ fmt.Int (Qnum q)
    else fmt.Int (Qnum q) ++ "/" ++ fmt.Int (Zpos (Qden q));
  json_Marshal_strings d :=
    Ok ("{" ++ strings.Join
                 (map (fun kv => quote (fst kv) ++ ":" ++ quote (snd kv)) d)
                 "," ++ "}");
  json_Marshal_lists d :=
    Ok ("{" ++ strings.Join
                 (map (fun kv => quote (fst kv) ++ ":["
                                   ++ strings.Join (map quote (snd kv)) ","
                                   ++ "]") d)
                 "," ++ "}");
  json_Decode_SearchResult := decodeSearchResult;
  json_Decode_Tracks := decodeTracks;
  json_Decode_User := decodeUser;
  json_Decode_Playlist := decodePlaylist
|}.

(** The network that answers the n-th request with the n-th reply of a
    script, and refuses the connection once the script is over. *)
Definition scripted (replies : list RoundTrip) : Network :=
  fun h _ => nth (length h) replies (TransportError "connection refused").

(** The toy format of the token response: [token=<t>] holds the token [t],
    [{}] is an object without a token, anything else does not decode. *)
Definition decodeObject (body : string) : result (string -> option string) :=
  if strings.HasPrefix body "token=" then
    Ok (fun key =>
          if String.eqb key "access_token"
          then Some (strings.TrimPrefix body "token=") else None)
  else if String.eqb body "{}" then Ok (fun _ => None)
  else Err "invalid character".

#[global] Instance authRuntime : AuthRuntime := {|
  base64_EncodeToString s := "b64(" ++ s ++ ")";
  json_Decode_object := decodeObject
|}.

(** An environment with the two credentials, and one that has a refresh
    token too. *)
Definition appOnly : Environ :=
  fun name =>
    if String.eqb name "SPOTIFY_CLIENT_ID" then "id"
    else if String.eqb name "SPOTIFY_CLIENT_SECRET" then "secret"
    else "".

Definition withUser : Environ :=
  fun name =>
    if String.eqb name "SPOTIFY_REFRESH_TOKEN" then "refresh" else appOnly name.

Definition anonymous : Client := NewClient "id" "secret".

Definition loggedIn : Client :=
  {| clientID := "id"; clientSecret := "secret"; accessToken := "token" |}.

Definition bot : agent.MoodalystAgent :=
  {| agent.spotifyClient := loggedIn; agent.moodAnalyzer := tt |}.

End Sample.

(** ** Facts on the string functions *)

Section StringFacts.

Import strings.

Lemma append_assoc (a b c : string) : (a ++ b) ++ c = a ++ (b ++ c).
Proof. induction a as [|x a IH]; simpl; [reflexivity | now rewrite IH]. Qed.

Lemma append_empty_r (a : string) : a ++ "" = a.
Proof. induction a as [|x a IH]; simpl; [reflexivity | now rewrite IH]. Qed.

Lemma length_append (a b : string) :
  String.length (a ++ b) = (String.length a + String.length b)%nat.
Proof. induction a as [|x a IH]; simpl; [reflexivity | now rewrite IH]. Qed.

Lemma lowerByte_idem (c : ascii) : lowerByte (lowerByte c) = lowerByte c.
Proof. destruct c as [[] [] [] [] [] [] [] []]; reflexivity. Qed.

Lemma lowerByte_upperByte (c : ascii) :
  lowerByte (upperByte c) = lowerByte c.
Proof. destruct c as [[] [] [] [] [] [] [] []]; reflexivity. Qed.

Lemma lowerASCII_idem (s : string) :
  lowerASCII (lowerASCII s) = lowerASCII s.
Proof.
  induction s as [|c s IH]; simpl; [reflexivity|].
  now rewrite lowerByte_idem, IH.
Qed.

Lemma lowerASCII_upperASCII (s : string) :
  lowerASCII (upperASCII s) = lowerASCII s.
Proof.
  induction s as [|c s IH]; simpl; [reflexivity|].
  now rewrite lowerByte_upperByte, IH.
Qed.

Lemma lowerByte_below (c : ascii) :
  (nat_of_ascii (lowerByte c) <? 128)%nat = (nat_of_ascii c <? 128)%nat.
Proof. destruct c as [[] [] [] [] [] [] [] []]; reflexivity. Qed.

Lemma upperByte_below (c : ascii) :
  (nat_of_ascii (upperByte c) <? 128)%nat = (nat_of_ascii c <? 128)%nat.
Proof. destruct c as [[] [] [] [] [] [] [] []]; reflexivity. Qed.

Lemma isASCII_lowerASCII (s : string) : isASCII (lowerASCII s) = isASCII s.
Proof.
  induction s as [|c s IH]; simpl; [reflexivity|].
  now rewrite lowerByte_below, IH.
Qed.

Lemma isASCII_upperASCII (s : string) : isASCII (upperASCII s) = isASCII s.
Proof.
  induction s as [|c s IH]; simpl; [reflexivity|].
  now rewrite upperByte_below, IH.
Qed.

Lemma sameLetter_lowerByte (a b : ascii) :
  Spec.sameLetter a b -> lowerByte a = lowerByte b.
Proof.
  intros [-> | [-> | ->]].
  - reflexivity.
  - symmetry; apply lowerByte_upperByte.
  - symmetry; apply lowerByte_idem.
Qed.

Lemma CaseVariant_lowerASCII (s t : string) :
  Spec.CaseVariant s t -> lowerASCII s = lowerASCII t.
Proof.
  induction 1 as [|a b s t Hab _ IH]; simpl; [reflexivity|].
  now rewrite (sameLetter_lowerByte Hab), IH.
Qed.

Lemma CaseVariant_ASCII (s t : string) :
  Spec.CaseVariant s t -> isASCII s = true -> isASCII t = true.
Proof.
  induction 1 as [|a b s t Hab _ IH]; simpl; [trivial|].
  intros H. apply andb_prop in H. destruct H as [Ha Hs].
  rewrite (IH Hs), andb_true_r.
  destruct Hab as [-> | [-> | ->]];
    now rewrite ?upperByte_below, ?lowerByte_below.
Qed.

Lemma HasPrefix_append (m rest : string) : HasPrefix (m ++ rest) m = true.
Proof.
  induction m as [|c m IH]; simpl; [reflexivity|].
  now rewrite Ascii.eqb_refl, IH.
Qed.

Lemma Contains_unfold (s m : string) :
  Contains s m =
  HasPrefix s m || match s with
                   | EmptyString => false
                   | String _ s' => Contains s' m
                   end.
Proof. destruct s; reflexivity. Qed.

Lemma Contains_append (a m rest : string) :
  Contains (a ++ m ++ rest) m = true.
Proof.
  induction a as [|c a IH].
  - simpl. now rewrite Contains_unfold, HasPrefix_append.
  - rewrite Contains_unfold. simpl. rewrite IH. apply orb_true_r.
Qed.

End StringFacts.

(** ** The classifier *)

Section Classifier.

Import mood.
Context {unicode : strings.Unicode}.

Lemma containsAny_existsb (text : string) (terms : list string) :
  containsAny text terms = existsb (strings.Contains text) terms.
Proof.
  induction terms as [|term rest IH]; simpl; [reflexivity|].
  rewrite IH. now destruct (strings.Contains text term).
Qed.

Lemma containsAny_none (text : string) (terms : list string) :
  (forall k, In k terms -> strings.Contains text k = false) ->
  containsAny text terms = false.
Proof.
  induction terms as [|term rest IH]; intros H; simpl; [reflexivity|].
  rewrite (H term (or_introl eq_refl)).
  apply IH. intros k Hk. apply H. now right.
Qed.

Lemma keywords_listed (r : Spec.Rule) (k : string) :
  In r Spec.rules -> In k (Spec.keywords r) -> In k Spec.allKeywords.
Proof.
  intros Hr Hk. unfold Spec.allKeywords.
  apply in_flat_map. now exists r.
Qed.

(** The profile depends on the description through its lower-case form
    only. *)
Lemma AnalyzeMood_lowered (d d' : string) :
  strings.ToLower d = strings.ToLower d' -> AnalyzeMood d = AnalyzeMood d'.
Proof. intros H. unfold AnalyzeMood. now rewrite H. Qed.

(** The six tests of [AnalyzeMood] are the six rules of the table, applied
    in its order. *)
Lemma AnalyzeMood_applyRules (d : string) :
  AnalyzeMood d = Spec.applyRules (strings.ToLower d).
Proof.
  unfold AnalyzeMood, Spec.applyRules, Spec.rules, Spec.matches.
  cbv zeta. cbn [fold_left].
  repeat rewrite <- containsAny_existsb.
  cbn [Spec.keywords Spec.happy Spec.sad Spec.relaxed Spec.energetic
       Spec.romantic Spec.focused].
  repeat match goal with
         | |- context [containsAny ?t ?l] => destruct (containsAny t l)
         end; reflexivity.
Qed.

Lemma applyRules_lastMatch (text : string) :
  Spec.applyRules text =
  match Spec.lastMatch text with
  | Some r => Spec.outcome r
  | None => Spec.neutral
  end.
Proof.
  unfold Spec.applyRules, Spec.lastMatch, Spec.rules.
  cbn [fold_left rev app find].
  repeat match goal with
         | |- context [Spec.matches text ?r] => destruct (Spec.matches text r)
         end; reflexivity.
Qed.

(** On an ASCII description the lower-case text is known. *)
Lemma AnalyzeMood_ASCII (d : string) :
  strings.isASCII d = true ->
  AnalyzeMood d = Spec.applyRules (strings.lowerASCII d).
Proof.
  intros H. now rewrite AnalyzeMood_applyRules, strings.ToLower_ASCII.
Qed.

(** C1. Whatever the description, and so for every one that matches the
    keyword sets of several categories, [AnalyzeMood] returns what the six
    rules give when applied in table order (happy, sad, relaxed, energetic,
    romantic, focused), a matching rule replacing the whole profile; that is
    the complete profile of the last rule that matches.  A text with a
    keyword of "happy" and one of "focused" gets the complete "focused"
    profile. *)
Theorem AnalyzeMood_last_match_wins (d : string) :
  let text := strings.ToLower d in
  mood.AnalyzeMood d = Spec.applyRules text /\
  mood.AnalyzeMood d =
    match Spec.lastMatch text with
    | Some r => Spec.outcome r
    | None => Spec.neutral
    end /\
  (Spec.matches text Spec.happy = true ->
   Spec.matches text Spec.focused = true ->
   mood.AnalyzeMood d = Spec.outcome Spec.focused).
Proof.
  intros text. split; [apply AnalyzeMood_applyRules|].
  split.
  - rewrite AnalyzeMood_applyRules. apply applyRules_lastMatch.
  - intros _ Hfocused.
    rewrite AnalyzeMood_applyRules, applyRules_lastMatch.
    unfold Spec.lastMatch, Spec.rules. cbn [rev app find].
    fold text. now rewrite Hfocused.
Qed.

End Classifier.

Lemma AnalyzeMood_last_match_wins_witness :
  Spec.matches (strings.ToLower "So HAPPY, and focused on work") Spec.happy
    = true /\
  Spec.matches (strings.ToLower "So HAPPY, and focused on work") Spec.focused
    = true /\
  mood.AnalyzeMood "So HAPPY, and focused on work"
    = Spec.outcome Spec.focused.
Proof.
  split; [reflexivity|]. split; [reflexivity|].
  destruct (AnalyzeMood_last_match_wins "So HAPPY, and focused on work")
    as (_ & _ & H).
  apply H; reflexivity.
Defined.

Section ClassifierClaims.

Context {unicode : strings.Unicode}.

(** C2, as the code has it.  "I feel happy and energetic" has the keywords
    "happy" and "energetic" of the first rule and the keyword "energetic" of
    the fourth; the fourth is applied later, so the profile has mood
    "energetic" and energy 0.9. *)
Theorem AnalyzeMood_happy_and_energetic :
  mood.Mood (mood.AnalyzeMood "I feel happy and energetic") = "energetic" /\
  mood.Energy (mood.AnalyzeMood "I feel happy and energetic") = 0.9%Q.
Proof.
  rewrite AnalyzeMood_ASCII by reflexivity. split; reflexivity.
Qed.

(** C3. A description whose lower-case text contains no keyword of any of
    the six categories gets the neutral profile: mood "neutral", the four
    features at 0.5, no genre and empty search terms. *)
Theorem AnalyzeMood_neutral_default (d : string) :
  (forall k, In k Spec.allKeywords ->
             strings.Contains (strings.ToLower d) k = false) ->
  mood.AnalyzeMood d =
    {| mood.Mood := "neutral"; mood.Energy := 0.5; mood.Danceability := 0.5;
       mood.Valence := 0.5; mood.Acousticness := 0.5;
       mood.SuggestedGenres := []; mood.SearchQueryTerms := "" |}.
Proof.
  intros H.
  assert (Hrule : forall r, In r Spec.rules ->
                    Spec.matches (strings.ToLower d) r = false).
  { intros r Hr. unfold Spec.matches. rewrite <- containsAny_existsb.
    apply containsAny_none. intros k Hk.
    apply H. now apply keywords_listed with r. }
  rewrite AnalyzeMood_applyRules.
  unfold Spec.applyRules, Spec.rules. cbn [fold_left].
  rewrite !Hrule by (simpl; tauto).
  reflexivity.
Qed.

(** C9, as the code has it.  [AnalyzeMood] is a function of the
    description, and of its lower-case form only: equal descriptions get
    equal profiles; a description and its lower-case form get the same
    profile, and so do any two descriptions with the same lower-case form.
    On ASCII text this covers every change of letter case: an ASCII
    description, its upper-case form and every text that differs from it in
    the case of letters get the same profile. *)
Theorem AnalyzeMood_case_insensitive :
  (forall d d', d = d' -> mood.AnalyzeMood d = mood.AnalyzeMood d') /\
  (forall d, mood.AnalyzeMood (strings.ToLower d) = mood.AnalyzeMood d) /\
  (forall d d',
      strings.ToLower d = strings.ToLower d' ->
      mood.AnalyzeMood d = mood.AnalyzeMood d') /\
  (forall d,
      strings.isASCII d = true ->
      mood.AnalyzeMood (strings.upperASCII d) = mood.AnalyzeMood d) /\
  (forall d d',
      strings.isASCII d = true -> Spec.CaseVariant d d' ->
      mood.AnalyzeMood d = mood.AnalyzeMood d').
Proof.
  split; [now intros d d' ->|].
  split; [intros d; apply AnalyzeMood_lowered, strings.ToLower_ToLower|].
  split; [exact AnalyzeMood_lowered|].
  split.
  - intros d H. apply AnalyzeMood_lowered.
    rewrite !strings.ToLower_ASCII by now rewrite ?isASCII_upperASCII.
    apply lowerASCII_upperASCII.
  - intros d d' H V. apply AnalyzeMood_lowered.
    rewrite !strings.ToLower_ASCII
      by (trivial; now apply CaseVariant_ASCII with d).
    now apply CaseVariant_lowerASCII.
Qed.

End ClassifierClaims.

(** C2, as stated (mood "happy" with energy 0.8), does not hold, however
    the text is put in lower case. *)
Lemma AnalyzeMood_happy_and_energetic_not_happy :
  ~ exists unicode : strings.Unicode,
      mood.Mood (mood.AnalyzeMood "I feel happy and energetic") = "happy" /\
      mood.Energy (mood.AnalyzeMood "I feel happy and energetic") = 0.8%Q.
Proof.
  intros [unicode [H _]].
  rewrite AnalyzeMood_ASCII in H by reflexivity.
  vm_compute in H. discriminate H.
Qed.

Lemma AnalyzeMood_neutral_default_witness :
  mood.Mood (mood.AnalyzeMood "Banana bread recipe") = "neutral".
Proof.
  rewrite (AnalyzeMood_neutral_default "Banana bread recipe").
  - reflexivity.
  - intros k Hk.
    assert (F : forallb (fun k => negb (strings.Contains
                                         (strings.ToLower "Banana bread recipe") k))
                        Spec.allKeywords = true) by reflexivity.
    rewrite forallb_forall in F. specialize (F k Hk).
    now destruct (strings.Contains _ k).
Defined.

Lemma AnalyzeMood_case_insensitive_witness :
  Spec.CaseVariant "Feeling Sad" "fEELING sAD" /\
  mood.AnalyzeMood "Feeling Sad" = mood.AnalyzeMood "fEELING sAD".
Proof.
  assert (V : Spec.CaseVariant "Feeling Sad" "fEELING sAD").
  { repeat (constructor;
            [ first [ left; reflexivity
                    | right; left; reflexivity
                    | right; right; reflexivity ] | ]).
    constructor. }
  split; [exact V|].
  destruct (@AnalyzeMood_case_insensitive Sample.byteWise)
    as (_ & _ & _ & _ & H).
  exact (H "Feeling Sad" "fEELING sAD" eq_refl V).
Defined.

(** C9, as stated (any case variant of any description), does not hold.
    The long s is a lower-case letter whose upper-case form is S, so "SAD"
    is the upper-case form of the text spelled long s, a, d.  That text has
    no letter to put in lower case and no keyword in it, so its mood is
    "neutral", while "SAD" has the mood "sad".  On these two texts the
    byte-wise functions compute what Go computes. *)
Lemma AnalyzeMood_long_s_differs :
  Spec.UnicodeCaseVariant (Spec.longS ++ "ad") "SAD" /\
  mood.Mood (@mood.AnalyzeMood Sample.byteWise (Spec.longS ++ "ad"))
    = "neutral" /\
  mood.Mood (@mood.AnalyzeMood Sample.byteWise "SAD") = "sad" /\
  @mood.AnalyzeMood Sample.byteWise (Spec.longS ++ "ad")
    <> @mood.AnalyzeMood Sample.byteWise "SAD".
Proof.
  split; [|split; [reflexivity|split; [reflexivity|discriminate]]].
  apply (Spec.UnicodeCaseVariant_longS (s := "ad") (t := "AD")).
  apply Spec.UnicodeCaseVariant_ASCII.
  repeat (constructor; [right; left; reflexivity|]). constructor.
Qed.

(** ** Running programs *)

Section Running.

Import spotify.

Lemma exec_bind (A B : Type) (net : Network) (p : Prog A) (f : A -> Prog B)
      (h : list Request) :
  exec net (bind p f) h = exec net (f (fst (exec net p h))) (snd (exec net p h)).
Proof.
  revert h. induction p as [a | req k IH]; intros h; simpl.
  - reflexivity.
  - apply IH.
Qed.

(** A program that ran from [h] has only added requests to [h]. *)
Lemma exec_extends (A : Type) (net : Network) (p : Prog A) (h : list Request) :
  exists sent, snd (exec net p h) = (sent ++ h)%list.
Proof.
  revert h. induction p as [a | req k IH]; intros h; simpl.
  - now exists [].
  - destruct (IH (net h req) (req :: h)) as [sent E].
    exists (sent ++ [req])%list. now rewrite E, <- app_assoc.
Qed.

Lemma history_grows (A : Type) (x : A) (l : list A) : l <> x :: l.
Proof.
  intros E. apply (f_equal (@length A)) in E. simpl in E. lia.
Qed.

End Running.

(** ** The client *)

Section ClientFacts.

Import spotify.
Context {rt : Runtime}.

(** C5. With an empty access token, each of [SearchTracks],
    [GetRecommendations], [GetCurrentUser], [CreatePlaylist] and
    [AddTracksToPlaylist] returns the error "not authenticated" and leaves
    the history of requests as it was: nothing is sent. *)
Theorem unauthenticated_sends_nothing (c : Client) (net : Network)
        (h : list Request) :
  accessToken c = "" ->
  (forall query limit,
      exec net (SearchTracks c query limit) h
      = (Err "not authenticated", h)) /\
  (forall seedTracks seedGenres moodParams limit,
      exec net (GetRecommendations c seedTracks seedGenres moodParams limit) h
      = (Err "not authenticated", h)) /\
  exec net (GetCurrentUser c) h = (Err "not authenticated", h) /\
  (forall userID name description,
      exec net (CreatePlaylist c userID name description) h
      = (Err "not authenticated", h)) /\
  (forall playlistID trackURIs,
      exec net (AddTracksToPlaylist c playlistID trackURIs) h
      = (Some "not authenticated", h)).
Proof.
  intros E.
  unfold SearchTracks, GetRecommendations, GetCurrentUser, CreatePlaylist,
    AddTracksToPlaylist.
  rewrite E. repeat split.
Qed.

(** The same on the programs themselves: each is a bare return. *)
Lemma unauthenticated_returns_at_once (c : Client) :
  accessToken c = "" ->
  (forall query limit,
      SearchTracks c query limit = Ret (Err "not authenticated")) /\
  (forall seedTracks seedGenres moodParams limit,
      GetRecommendations c seedTracks seedGenres moodParams limit
      = Ret (Err "not authenticated")) /\
  GetCurrentUser c = Ret (Err "not authenticated") /\
  (forall userID name description,
      CreatePlaylist c userID name description
      = Ret (Err "not authenticated")) /\
  (forall playlistID trackURIs,
      AddTracksToPlaylist c playlistID trackURIs
      = Ret (Some "not authenticated")).
Proof.
  intros E.
  unfold SearchTracks, GetRecommendations, GetCurrentUser, CreatePlaylist,
    AddTracksToPlaylist.
  rewrite E. repeat split.
Qed.

(** C8, as the code has it.  When [CreatePlaylist] has sent its request and
    a response came back, the outcome is decided by the status code and the
    body: with a status other than 200 and 201 it is the error "create
    playlist failed with status ..."; with status 200 or 201 it is the
    playlist the body decodes to, or the decoding error. *)
Theorem CreatePlaylist_status (c : Client) (userID name description : string)
        (net : Network) (h : list Request) (r : result Playlist.t)
        (req : Request) (status : Z) (body : string) :
  exec net (CreatePlaylist c userID name description) h = (r, req :: h) ->
  net h req = Response status body ->
  (status <> 200%Z /\ status <> 201%Z ->
   r = Err ("create playlist failed with status " ++ fmt.Int status
              ++ ": " ++ body)) /\
  (status = 200%Z \/ status = 201%Z ->
   r = match json_Decode_Playlist body with
       | Ok playlist => Ok playlist
       | Err err => Err ("failed to decode playlist response: " ++ err)
       end).
Proof.
  unfold CreatePlaylist. intros H Hnet.
  destruct (String.eqb (accessToken c) "");
    [simpl in H; injection H as _ H; now apply history_grows in H|].
  destruct (json_Marshal_strings _) as [jsonData|err];
    [|simpl in H; injection H as _ H; now apply history_grows in H].
  destruct (http_NewRequest _ _ _) as [req0|err];
    [|simpl in H; injection H as _ H; now apply history_grows in H].
  cbn [bind exec] in H.
  set (sent := Header_Add _ _ (Header_Add _ _ req0)) in H.
  assert (Hreq : sent = req).
  { destruct (net h sent) as [err|StatusCode body'];
      [simpl in H; now injection H|].
    destruct (negb (StatusCode =? 201)%Z && negb (StatusCode =? 200)%Z);
      [simpl in H; now injection H|].
    destruct (json_Decode_Playlist body'); simpl in H; now injection H. }
  rewrite Hreq, Hnet in H.
  split.
  - intros [H200 H201].
    apply Z.eqb_neq in H200, H201. rewrite H200, H201 in H.
    simpl in H. now injection H.
  - intros [-> | ->]; simpl in H;
      destruct (json_Decode_Playlist body); simpl in H; now injection H.
Qed.

End ClientFacts.

Lemma unauthenticated_sends_nothing_witness :
  spotify.exec (Sample.scripted [])
               (spotify.SearchTracks Sample.anonymous "rain" 5) []
  = (spotify.Err "not authenticated", []).
Proof.
  apply (@unauthenticated_sends_nothing Sample.runtime
           Sample.anonymous (Sample.scripted []) []).
  reflexivity.
Defined.

Lemma CreatePlaylist_status_witness :
  fst (spotify.exec
         (Sample.scripted [spotify.Response 201 "p7"])
         (spotify.CreatePlaylist Sample.loggedIn "me" "Mix" "A mix") [])
  = spotify.Ok
      {| spotify.Playlist.ID := "p7"; spotify.Playlist.Name := "p7";
         spotify.Playlist.ExternalURLs :=
           {| spotify.Spotify := "https://open.spotify.com/playlist/p7" |} |}.
Proof.
  pose proof (@CreatePlaylist_status Sample.runtime
                Sample.loggedIn "me" "Mix" "A mix"
                (Sample.scripted [spotify.Response 201 "p7"]) []
                (fst (spotify.exec
                        (Sample.scripted [spotify.Response 201 "p7"])
                        (spotify.CreatePlaylist Sample.loggedIn
                           "me" "Mix" "A mix") []))
                _ 201%Z "p7" eq_refl eq_refl) as [_ H].
  rewrite H by (right; reflexivity).
  reflexivity.
Defined.

(** C8, as stated, does not hold: a 2xx status other than 200 and 201 is a
    failure although the body decodes. *)
Lemma CreatePlaylist_2xx_not_enough :
  ~ (forall (rt : spotify.Runtime) c userID name description net h r req
            status body playlist,
        spotify.exec net (spotify.CreatePlaylist c userID name description) h
        = (r, req :: h) ->
        net h req = spotify.Response status body ->
        (200 <= status < 300)%Z ->
        spotify.json_Decode_Playlist body = spotify.Ok playlist ->
        r = spotify.Ok playlist).
Proof.
  intros claim.
  pose proof (claim Sample.runtime Sample.loggedIn "me" "Mix" "A mix"
                (Sample.scripted [spotify.Response 202 "p7"]) []
                _ _ 202%Z "p7" _ eq_refl eq_refl
                (conj (proj1 (Z.leb_le 200 202) eq_refl)
                      (proj1 (Z.ltb_lt 202 300) eq_refl))
                eq_refl) as H.
  discriminate H.
Qed.

(** ** The response text *)

Section ResponseFacts.

Import spotify agent.

Lemma concat_cons (x : string) (xs : list string) :
  String.concat "" (x :: xs) = x ++ String.concat "" xs.
Proof.
  destruct xs as [|y ys]; simpl; [now rewrite append_empty_r | reflexivity].
Qed.

Lemma artistNameOf_displayed (track : Track.t) :
  artistNameOf track = Layout.displayedArtist track.
Proof.
  unfold artistNameOf, Layout.displayedArtist.
  now destruct (Track.Artists track).
Qed.

(** The loop from any state: it adds one line per track, numbered on from
    the index, and the URIs that are not empty. *)
Lemma responseStep_fold (tracks : list Track.t) (i : nat) (response : string)
      (trackURIs : list string) :
  fold_left responseStep tracks (i, response, trackURIs) =
  ((i + length tracks)%nat,
   response ++ String.concat ""
     (map Layout.trackLine (combine (seq (S i) (length tracks)) tracks)),
   (trackURIs ++ filter (fun uri => negb (String.eqb uri ""))
                        (map Track.URI tracks))%list).
Proof.
  revert i response trackURIs.
  induction tracks as [|track tracks IH]; intros i response trackURIs.
  - simpl. now rewrite append_empty_r, Nat.add_0_r, app_nil_r.
  - cbn [fold_left]. unfold responseStep at 2. rewrite IH.
    cbn [length seq combine map filter]. rewrite concat_cons.
    unfold Layout.trackLine at 2, mood.FormatTrackRecommendation.
    cbn [fst snd].
    rewrite artistNameOf_displayed, Nat.add_1_r, Nat.add_succ_r.
    rewrite !append_assoc.
    destruct (negb (String.eqb (Track.URI track) ""));
      now rewrite <- ?app_assoc.
Qed.

Lemma buildResponse_text (moodProfile : mood.MoodProfile)
      (tracks : list Track.t) :
  fst (buildResponse moodProfile tracks)
  = Layout.responseText moodProfile tracks.
Proof.
  unfold buildResponse. rewrite responseStep_fold. reflexivity.
Qed.

(** C10. The response is the header followed by one numbered line per
    track of the list, none left out.  The line of a track reads: number,
    ". ", note sign, title, " by ", artist, line feed, three spaces, link
    sign, link, line feed; the artist is the name of the first artist of
    the track's list and of no other, and "Unknown" when the list is
    empty. *)
Theorem response_lists_every_track (moodProfile : mood.MoodProfile)
        (tracks : list Track.t) :
  fst (buildResponse moodProfile tracks)
  = Layout.header moodProfile
      ++ String.concat ""
           (map Layout.trackLine (combine (seq 1 (length tracks)) tracks)) /\
  length (map Layout.trackLine (combine (seq 1 (length tracks)) tracks))
  = length tracks /\
  (forall n track,
      Layout.trackLine (n, track)
      = fmt.Nat n ++ ". " ++ bytes [240; 159; 142; 181] ++ " "
          ++ Track.Name track ++ " by "
          ++ match Track.Artists track with
             | [] => "Unknown"
             | first :: _ => ArtistName first
             end
          ++ LF ++ "   " ++ bytes [240; 159; 148; 151] ++ " "
          ++ Spotify (Track.ExternalURLs track) ++ LF) /\
  (forall track, Track.Artists track = [] ->
                 artistNameOf track = "Unknown" /\
                 Layout.displayedArtist track = "Unknown") /\
  (forall track first others,
      Track.Artists track = first :: others ->
      artistNameOf track = ArtistName first /\
      Layout.displayedArtist track = ArtistName first).
Proof.
  split; [apply buildResponse_text|].
  split; [now rewrite length_map, length_combine, length_seq, Nat.min_id|].
  split; [|split].
  - intros n track. unfold Layout.trackLine, Layout.displayedArtist.
    cbn [fst snd]. now destruct (Track.Artists track).
  - intros track E. rewrite artistNameOf_displayed.
    unfold Layout.displayedArtist. now rewrite E.
  - intros track first others E. rewrite artistNameOf_displayed.
    unfold Layout.displayedArtist. now rewrite E.
Qed.

Lemma response_lists_every_track_witness :
  fst (buildResponse Spec.neutral
         [Sample.trackOf "a";
          {| Track.ID := "b"; Track.Name := "Blue in Green";
             Track.Artists := [ {| ArtistName := "Miles Davis" |};
                                {| ArtistName := "Bill Evans" |} ];
             Track.ExternalURLs := {| Spotify := "https://sptfy/b" |};
             Track.PreviewURL := ""; Track.URI := "" |}])
  = "Based on your mood (neutral), here are some song recommendations:"
      ++ LF ++ LF
      ++ "1. " ++ bytes [240; 159; 142; 181] ++ " Song a by Unknown" ++ LF
      ++ "   " ++ bytes [240; 159; 148; 151]
      ++ " https://open.spotify.com/track/a" ++ LF
      ++ "2. " ++ bytes [240; 159; 142; 181]
      ++ " Blue in Green by Miles Davis" ++ LF
      ++ "   " ++ bytes [240; 159; 148; 151] ++ " https://sptfy/b" ++ LF.
Proof.
  rewrite (proj1 (response_lists_every_track _ _)). reflexivity.
Defined.

End ResponseFacts.

(** ** The recommend flow *)

Section FlowFacts.

Import spotify agent.
Context {rt : Runtime} {unicode : strings.Unicode}.

Lemma collectSeedTrackIDs_from (tracks : list Track.t) (acc : list string) :
  fold_left (fun seedTrackIDs t =>
               if negb (String.eqb (Track.ID t) "")
               then (seedTrackIDs ++ [Track.ID t])%list
               else seedTrackIDs)
            tracks acc
  = (acc ++ filter (fun id => negb (String.eqb id "")) (map Track.ID tracks))%list.
Proof.
  revert acc. induction tracks as [|t tracks IH]; intros acc; simpl.
  - now rewrite app_nil_r.
  - rewrite IH. destruct (negb (String.eqb (Track.ID t) "")).
    + now rewrite <- app_assoc.
    + reflexivity.
Qed.

(** The seeds are the identifiers of the tracks found, the empty ones left
    out, in the order of the tracks. *)
Lemma collectSeedTrackIDs_filter (tracks : list Track.t) :
  collectSeedTrackIDs tracks
  = filter (fun id => negb (String.eqb id "")) (map Track.ID tracks).
Proof. unfold collectSeedTrackIDs. now rewrite collectSeedTrackIDs_from. Qed.

Lemma fillSeedGenres_firstn (moodProfile : mood.MoodProfile)
      (seedTrackIDs : list string) :
  fillSeedGenres moodProfile seedTrackIDs
  = firstn (Flow.genreSeedCount (length seedTrackIDs)
                           (length (mood.SuggestedGenres moodProfile)))
           (mood.SuggestedGenres moodProfile).
Proof.
  unfold fillSeedGenres, Flow.genreSeedCount.
  destruct (length seedTrackIDs <? 5)%nat; [|reflexivity].
  destruct (0 <? length (mood.SuggestedGenres moodProfile))%nat eqn:E0.
  - destruct (5 - length seedTrackIDs
              <? length (mood.SuggestedGenres moodProfile))%nat eqn:E1.
    + apply Nat.ltb_lt in E1. now rewrite Nat.min_l by lia.
    + apply Nat.ltb_ge in E1. rewrite Nat.min_r by lia.
      now rewrite firstn_all.
  - apply Nat.ltb_ge in E0.
    destruct (mood.SuggestedGenres moodProfile); [|simpl in E0; lia].
    now rewrite firstn_nil.
Qed.

(** C4. When the first search has found tracks, the flow goes on with one
    call of [GetRecommendations]; its seed tracks are the non-empty
    identifiers of the tracks found.  When fewer than 5 were collected, the
    genre seeds passed are exactly [min (5 - count) (number of genres of the
    profile)] many and are the first genres of the profile in their order;
    when 5 or more were collected, no genre seed is passed. *)
Theorem recommendMusic_genre_seeds (a : MoodalystAgent)
        (moodDescription : string) (net : Network) (h h1 : list Request)
        (tracks : list Track.t) :
  let moodProfile := mood.AnalyzeMood moodDescription in
  let query := Flow.firstQuery moodDescription in
  let seedTrackIDs :=
    filter (fun id => negb (String.eqb id "")) (map Track.ID tracks) in
  let genres := mood.SuggestedGenres moodProfile in
  let seedGenres := fillSeedGenres moodProfile seedTrackIDs in
  exec net (SearchTracks (spotifyClient a) query 5) h = (Ok tracks, h1) ->
  tracks <> [] ->
  exec net (recommendMusic a moodDescription) h
  = exec net
      (bind (GetRecommendations (spotifyClient a) seedTrackIDs seedGenres
                                (mood.GetMoodParameters moodProfile) 15)
            (afterRecommendations a moodProfile query tracks))
      h1 /\
  ((length seedTrackIDs < 5)%nat ->
   length seedGenres = Nat.min (5 - length seedTrackIDs) (length genres) /\
   seedGenres = firstn (length seedGenres) genres) /\
  ((5 <= length seedTrackIDs)%nat -> seedGenres = []).
Proof.
  intros moodProfile query seedTrackIDs genres seedGenres Hsearch Hfound.
  assert (Hgenres : seedGenres
                    = firstn (Flow.genreSeedCount (length seedTrackIDs)
                                                  (length genres)) genres)
    by apply fillSeedGenres_firstn.
  split; [|split].
  - subst moodProfile query seedTrackIDs genres seedGenres.
    unfold Flow.firstQuery in Hsearch.
    unfold recommendMusic. cbv zeta. rewrite exec_bind, Hsearch.
    cbn [fst snd].
    destruct tracks as [|t tracks']; [contradiction|].
    cbn [length Nat.eqb]. unfold recommendFrom. cbv zeta.
    rewrite collectSeedTrackIDs_filter. reflexivity.
  - intros Hfew. apply Nat.ltb_lt in Hfew.
    unfold Flow.genreSeedCount in Hgenres. rewrite Hfew in Hgenres.
    assert (Hlen : length seedGenres
                   = Nat.min (5 - length seedTrackIDs) (length genres)).
    { rewrite Hgenres. apply firstn_length_le. lia. }
    split; [exact Hlen|]. now rewrite Hlen.
  - intros Hmany. apply Nat.ltb_ge in Hmany.
    unfold Flow.genreSeedCount in Hgenres. now rewrite Hmany in Hgenres.
Qed.

(** C6. When the first search succeeds with no track, the flow returns the
    message "I understand you're feeling <mood>, ...", which contains the
    mood label, with no error, and the history is the one the search left:
    no request for recommendations, for the user, for a playlist or for
    its tracks is sent. *)
Theorem recommendMusic_nothing_found (a : MoodalystAgent)
        (moodDescription : string) (net : Network) (h h1 : list Request)
        (tracks : list Track.t) :
  let moodProfile := mood.AnalyzeMood moodDescription in
  let query := Flow.firstQuery moodDescription in
  let text :=
    "I understand you're feeling " ++ mood.Mood moodProfile
      ++ ", but I couldn't find any matching songs right now." in
  exec net (SearchTracks (spotifyClient a) query 5) h = (Ok tracks, h1) ->
  length tracks = 0%nat ->
  exec net (recommendMusic a moodDescription) h = ((text, None), h1) /\
  strings.Contains text (mood.Mood moodProfile) = true.
Proof.
  intros moodProfile query text Hsearch Hnone.
  split.
  - subst moodProfile query text. unfold Flow.firstQuery in Hsearch.
    unfold recommendMusic. cbv zeta. rewrite exec_bind, Hsearch.
    cbn [fst snd]. rewrite Hnone. reflexivity.
  - apply Contains_append.
Qed.

(** The playlist step never returns an error. *)
Lemma tryPlaylist_no_error (a : MoodalystAgent)
      (moodProfile : mood.MoodProfile) (response : string)
      (trackURIs : list string) (net : Network) (h : list Request) :
  snd (fst (exec net (tryPlaylist a moodProfile response trackURIs) h)) = None.
Proof.
  unfold tryPlaylist. rewrite exec_bind.
  destruct (fst (exec net (GetCurrentUser _) h)) as [user|e];
    [|reflexivity].
  rewrite exec_bind.
  destruct (fst (exec net (CreatePlaylist _ _ _ _) _)) as [playlist|e];
    [|reflexivity].
  rewrite exec_bind.
  now destruct (fst (exec net (AddTracksToPlaylist _ _ _) _)).
Qed.

Lemma respond_no_error (a : MoodalystAgent) (moodProfile : mood.MoodProfile)
      (tracks : list Track.t) (net : Network) (h : list Request) :
  snd (fst (exec net (respond a moodProfile tracks) h)) = None.
Proof.
  unfold respond. destruct (buildResponse moodProfile tracks).
  apply tryPlaylist_no_error.
Qed.

Lemma recommendMusic_no_error (a : MoodalystAgent) (moodDescription : string)
      (net : Network) (h : list Request) :
  snd (fst (exec net (recommendMusic a moodDescription) h)) = None.
Proof.
  unfold recommendMusic. cbv zeta. rewrite exec_bind.
  destruct (fst (exec net (SearchTracks _ _ _) h)) as [tracks|e];
    [|reflexivity].
  destruct (length tracks =? 0)%nat; [reflexivity|].
  unfold recommendFrom. cbv zeta. rewrite exec_bind.
  unfold afterRecommendations.
  destruct (fst (exec net (GetRecommendations _ _ _ _ _) _)) as [recs|e].
  - apply respond_no_error.
  - rewrite exec_bind.
    destruct (fst (exec net (SearchTracks _ _ _) _)) as [moreTracks|e'].
    + destruct (0 <? length moreTracks)%nat; apply respond_no_error.
    + apply respond_no_error.
Qed.

(** A run of [recommendMusic] ends with one of the two short messages, or
    it is a run of [respond] on the tracks gathered. *)
Lemma recommendMusic_ends (a : MoodalystAgent) (moodDescription : string)
      (net : Network) (h : list Request) :
  let moodProfile := mood.AnalyzeMood moodDescription in
  (exists h',
      exec net (recommendMusic a moodDescription) h
      = (("I detected your mood as '" ++ mood.Mood moodProfile
            ++ "', but I couldn't fetch recommendations right now. "
            ++ "Try again later!", None), h')) \/
  (exists h',
      exec net (recommendMusic a moodDescription) h
      = (("I understand you're feeling " ++ mood.Mood moodProfile
            ++ ", but I couldn't find any matching songs right now.",
          None), h')) \/
  (exists tracks h',
      exec net (recommendMusic a moodDescription) h
      = exec net (respond a moodProfile tracks) h').
Proof.
  intros moodProfile. subst moodProfile.
  unfold recommendMusic. cbv zeta. rewrite exec_bind.
  destruct (exec net (SearchTracks _ _ _) h) as [[tracks|e] h1]; cbn [fst snd].
  - destruct (length tracks =? 0)%nat.
    + right; left. now exists h1.
    + right; right. unfold recommendFrom. cbv zeta. rewrite exec_bind.
      unfold afterRecommendations.
      destruct (exec net (GetRecommendations _ _ _ _ _) h1)
        as [[recs|e] h2]; cbn [fst snd].
      * now exists (tracks ++ recs)%list, h2.
      * rewrite exec_bind.
        destruct (exec net (SearchTracks _ _ _) h2)
          as [[moreTracks|e'] h3]; cbn [fst snd].
        -- destruct (0 <? length moreTracks)%nat.
           ++ now exists (tracks ++ moreTracks)%list, h3.
           ++ now exists tracks, h3.
        -- now exists tracks, h3.
  - left. now exists h1.
Qed.

Lemma playlistNote_not_empty (response : string) (playlist : Playlist.t) :
  response ++ playlistNote playlist <> response.
Proof.
  intros E. apply (f_equal String.length) in E.
  rewrite length_append in E.
  unfold playlistNote in E. simpl in E. lia.
Qed.

(** The four outcomes of the playlist step, on the last stage of the
    flow. *)
Lemma respond_outcomes (a : MoodalystAgent)
        (moodProfile : mood.MoodProfile) (tracks : list Track.t)
        (net : Network) (h : list Request) :
  let c := spotifyClient a in
  let response := fst (buildResponse moodProfile tracks) in
  let trackURIs := snd (buildResponse moodProfile tracks) in
  let playlistName :=
    "Mood Analyst: " ++ strings.Title (mood.Mood moodProfile) ++ " Vibes" in
  let description :=
    "A playlist curated for your " ++ mood.Mood moodProfile ++ " mood." in
  (forall e h1,
      exec net (GetCurrentUser c) h = (Err e, h1) ->
      exec net (respond a moodProfile tracks) h = ((response, None), h1)) /\
  (forall user h1 e h2,
      exec net (GetCurrentUser c) h = (Ok user, h1) ->
      exec net (CreatePlaylist c (User.ID user) playlistName description) h1
      = (Err e, h2) ->
      exec net (respond a moodProfile tracks) h = ((response, None), h2)) /\
  (forall user h1 playlist h2 e h3,
      exec net (GetCurrentUser c) h = (Ok user, h1) ->
      exec net (CreatePlaylist c (User.ID user) playlistName description) h1
      = (Ok playlist, h2) ->
      exec net (AddTracksToPlaylist c (Playlist.ID playlist) trackURIs) h2
      = (Some e, h3) ->
      exec net (respond a moodProfile tracks) h = ((response, None), h3)) /\
  (forall user h1 playlist h2 h3,
      exec net (GetCurrentUser c) h = (Ok user, h1) ->
      exec net (CreatePlaylist c (User.ID user) playlistName description) h1
      = (Ok playlist, h2) ->
      exec net (AddTracksToPlaylist c (Playlist.ID playlist) trackURIs) h2
      = (None, h3) ->
      exec net (respond a moodProfile tracks) h
      = ((response ++ playlistNote playlist, None), h3) /\
      response ++ playlistNote playlist <> response).
Proof.
  intros c response trackURIs playlistName description.
  subst c response trackURIs playlistName description.
  unfold respond, tryPlaylist.
  destruct (buildResponse moodProfile tracks) as [response trackURIs].
  cbn [fst snd].
  split; [|split; [|split]].
  - intros e h1 Huser. now rewrite exec_bind, Huser.
  - intros user h1 e h2 Huser Hcreate.
    rewrite exec_bind, Huser. cbn [fst snd].
    now rewrite exec_bind, Hcreate.
  - intros user h1 playlist h2 e h3 Huser Hcreate Hadd.
    rewrite exec_bind, Huser. cbn [fst snd].
    rewrite exec_bind, Hcreate. cbn [fst snd].
    now rewrite exec_bind, Hadd.
  - intros user h1 playlist h2 h3 Huser Hcreate Hadd.
    split; [|apply playlistNote_not_empty].
    rewrite exec_bind, Huser. cbn [fst snd].
    rewrite exec_bind, Hcreate. cbn [fst snd].
    now rewrite exec_bind, Hadd.
Qed.

(** C7. Take a run of [recommendMusic] that has gathered its tracks and
    goes on to write the response text and to try the playlist.  If
    [GetCurrentUser] fails, or [CreatePlaylist] fails, or
    [AddTracksToPlaylist] fails, the text returned is exactly the response
    text written before the playlist was tried, and the error returned is
    [nil]; when the three succeed, and only then, the note on the playlist
    is appended.  [recommendMusic] returns a [nil] error on every run. *)
Theorem playlist_failures_swallowed (a : MoodalystAgent)
        (moodDescription : string) (tracks : list Track.t)
        (net : Network) (h0 h : list Request) :
  let moodProfile := mood.AnalyzeMood moodDescription in
  let c := spotifyClient a in
  let response := fst (buildResponse moodProfile tracks) in
  let trackURIs := snd (buildResponse moodProfile tracks) in
  let playlistName :=
    "Mood Analyst: " ++ strings.Title (mood.Mood moodProfile) ++ " Vibes" in
  let description :=
    "A playlist curated for your " ++ mood.Mood moodProfile ++ " mood." in
  exec net (recommendMusic a moodDescription) h0
  = exec net (respond a moodProfile tracks) h ->
  (forall e h1,
      exec net (GetCurrentUser c) h = (Err e, h1) ->
      exec net (recommendMusic a moodDescription) h0
      = ((response, None), h1)) /\
  (forall user h1 e h2,
      exec net (GetCurrentUser c) h = (Ok user, h1) ->
      exec net (CreatePlaylist c (User.ID user) playlistName description) h1
      = (Err e, h2) ->
      exec net (recommendMusic a moodDescription) h0
      = ((response, None), h2)) /\
  (forall user h1 playlist h2 e h3,
      exec net (GetCurrentUser c) h = (Ok user, h1) ->
      exec net (CreatePlaylist c (User.ID user) playlistName description) h1
      = (Ok playlist, h2) ->
      exec net (AddTracksToPlaylist c (Playlist.ID playlist) trackURIs) h2
      = (Some e, h3) ->
      exec net (recommendMusic a moodDescription) h0
      = ((response, None), h3)) /\
  (forall user h1 playlist h2 h3,
      exec net (GetCurrentUser c) h = (Ok user, h1) ->
      exec net (CreatePlaylist c (User.ID user) playlistName description) h1
      = (Ok playlist, h2) ->
      exec net (AddTracksToPlaylist c (Playlist.ID playlist) trackURIs) h2
      = (None, h3) ->
      exec net (recommendMusic a moodDescription) h0
      = ((response ++ playlistNote playlist, None), h3) /\
      response ++ playlistNote playlist <> response) /\
  (forall anyDescription anyHistory,
      snd (fst (exec net (recommendMusic a anyDescription) anyHistory))
      = None).
Proof.
  intros moodProfile c response trackURIs playlistName description Hrun.
  rewrite Hrun.
  destruct (respond_outcomes a moodProfile tracks net h)
    as (Huser & Hcreate & Hadd & Hall).
  split; [exact Huser|].
  split; [exact Hcreate|].
  split; [exact Hadd|].
  split; [exact Hall|].
  intros anyDescription anyHistory. apply recommendMusic_no_error.
Qed.

End FlowFacts.

Lemma recommendMusic_genre_seeds_witness :
  agent.fillSeedGenres (mood.AnalyzeMood "Feeling GREAT") ["a"; "b"]
  = ["pop"; "dance"; "electronic"].
Proof.
  destruct (@recommendMusic_genre_seeds Sample.runtime Sample.byteWise
              Sample.bot
              "Feeling GREAT"
              (Sample.scripted [spotify.Response 200 "a,b"]) []
              [ {| spotify.Method := "GET";
                   spotify.URL :=
                     "https://api.spotify.com/v1/search?"
                       ++ "q=happy upbeat energetic&type=track&limit=5";
                   spotify.Header := [("Authorization", "Bearer token")];
                   spotify.Body := None |} ]
              [Sample.trackOf "a"; Sample.trackOf "b"]
              eq_refl ltac:(discriminate)) as (_ & Hfew & _).
  destruct (Hfew ltac:(simpl; lia)) as [Hlen Hfirst].
  refine (eq_trans Hfirst _). rewrite Hlen. reflexivity.
Defined.

Lemma recommendMusic_nothing_found_witness :
  fst (spotify.exec (Sample.scripted [spotify.Response 200 "[]"])
                    (agent.recommendMusic Sample.bot "Feeling GREAT") [])
  = ("I understand you're feeling happy, "
       ++ "but I couldn't find any matching songs right now.", None).
Proof.
  rewrite (proj1 (@recommendMusic_nothing_found Sample.runtime
                    Sample.byteWise Sample.bot
                    "Feeling GREAT"
                    (Sample.scripted [spotify.Response 200 "[]"]) []
                    _ [] eq_refl eq_refl)).
  reflexivity.
Defined.

Lemma playlist_failures_swallowed_witness :
  fst (spotify.exec
         (Sample.scripted [spotify.Response 200 "a";
                           spotify.Response 200 "b";
                           spotify.Response 401 "token has no user scope"])
         (agent.recommendMusic Sample.bot "keep calm") [])
  = (fst (agent.buildResponse (mood.AnalyzeMood "keep calm")
                              [Sample.trackOf "a"; Sample.trackOf "b"]),
     None).
Proof.
  destruct (@playlist_failures_swallowed Sample.runtime Sample.byteWise
              Sample.bot
              "keep calm" [Sample.trackOf "a"; Sample.trackOf "b"]
              (Sample.scripted
                 [spotify.Response 200 "a"; spotify.Response 200 "b";
                  spotify.Response 401 "token has no user scope"])
              []
              (snd (spotify.exec
                      (Sample.scripted
                         [spotify.Response 200 "a"; spotify.Response 200 "b"])
                      (spotify.bind
                         (@spotify.SearchTracks Sample.runtime
                            Sample.loggedIn "relaxing chill ambient" 5)
                         (fun _ =>
                            @spotify.GetRecommendations Sample.runtime
                              Sample.loggedIn
                              ["a"] ["ambient"; "lo-fi"; "jazz"; "acoustic"]
                              (mood.GetMoodParameters
                                 (@mood.AnalyzeMood Sample.byteWise "keep calm")) 15))
                      []))
              eq_refl)
    as (Huser & _).
  now rewrite (Huser _ _ eq_refl).
Defined.

(** ** More on the string functions *)

Section MoreStringFacts.

Import strings.

Lemma HasPrefix_split (s m : string) :
  HasPrefix s m = true -> exists post, s = m ++ post.
Proof.
  revert s. induction m as [|c m IH]; intros s H.
  - now exists s.
  - destruct s as [|x s]; [discriminate|]. simpl in H.
    apply andb_prop in H. destruct H as [Hc Hm].
    apply Ascii.eqb_eq in Hc. subst x.
    destruct (IH s Hm) as [post ->]. now exists post.
Qed.

(** [Contains] is the occurrence of [m] somewhere in [s]. *)
Lemma Contains_split (s m : string) :
  Contains s m = true <-> exists pre post, s = pre ++ m ++ post.
Proof.
  split.
  - induction s as [|x s IH]; rewrite Contains_unfold; intros H.
    + rewrite orb_false_r in H. apply HasPrefix_split in H.
      destruct H as [post E]. now exists "", post.
    + apply orb_prop in H. destruct H as [H | H].
      * apply HasPrefix_split in H. destruct H as [post E].
        now exists "", post.
      * destruct (IH H) as (pre & post & ->).
        now exists (String x pre), post.
  - intros (pre & post & ->). apply Contains_append.
Qed.

End MoreStringFacts.

(** ** More on the classifier *)

Section ClassifierRange.

Import mood.
Context {unicode : strings.Unicode}.

Lemma matches_keyword (text : string) (r : Spec.Rule) :
  Spec.matches text r = true ->
  exists k, In k (Spec.keywords r) /\ strings.Contains text k = true.
Proof. unfold Spec.matches. now rewrite existsb_exists. Qed.

Lemma no_keyword_no_match (text : string) (r : Spec.Rule) :
  In r Spec.rules ->
  (forall k, In k Spec.allKeywords -> strings.Contains text k = false) ->
  Spec.matches text r = false.
Proof.
  intros Hr Hnone. unfold Spec.matches. rewrite <- containsAny_existsb.
  apply containsAny_none. intros k Hk.
  apply Hnone. now apply keywords_listed with r.
Qed.

(** The profile is the neutral one or the outcome of a rule that
    matches. *)
Lemma AnalyzeMood_cases (d : string) :
  (AnalyzeMood d = Spec.neutral /\
   forall r, In r Spec.rules -> Spec.matches (strings.ToLower d) r = false) \/
  (exists r, In r Spec.rules /\ Spec.matches (strings.ToLower d) r = true /\
             AnalyzeMood d = Spec.outcome r).
Proof.
  rewrite AnalyzeMood_applyRules, applyRules_lastMatch.
  unfold Spec.lastMatch.
  destruct (find _ _) as [r|] eqn:E.
  - right. apply find_some in E. destruct E as [Hin Hm].
    exists r. repeat split; [now apply in_rev | exact Hm].
  - left. split; [reflexivity|]. intros r Hr.
    pose proof (find_none _ _ E r) as H. apply H. now apply -> in_rev.
Qed.

(** X1. Whatever the description, the profile is one of seven fixed ones:
    the neutral profile or the profile of one of the six rules.  So the mood
    is one of the seven labels, the four features lie between 0 and 1, and
    there are no genres or exactly four. *)
Theorem AnalyzeMood_range (d : string) :
  let p := mood.AnalyzeMood d in
  In p (Spec.neutral :: map Spec.outcome Spec.rules) /\
  In (mood.Mood p)
     ["neutral"; "happy"; "sad"; "relaxed"; "energetic"; "romantic";
      "focused"] /\
  (0 <= mood.Energy p <= 1)%Q /\
  (0 <= mood.Danceability p <= 1)%Q /\
  (0 <= mood.Valence p <= 1)%Q /\
  (0 <= mood.Acousticness p <= 1)%Q /\
  (length (mood.SuggestedGenres p) = 0 \/
   length (mood.SuggestedGenres p) = 4)%nat.
Proof.
  intros p.
  assert (Hin : In p (Spec.neutral :: map Spec.outcome Spec.rules)).
  { subst p. destruct (AnalyzeMood_cases d) as [[-> _] | (r & Hr & _ & ->)].
    - now left.
    - right. now apply in_map. }
  split; [exact Hin|].
  simpl in Hin.
  repeat (destruct Hin as [<- | Hin];
          [ repeat split; simpl; try discriminate; tauto | ]).
  contradiction.
Qed.

End ClassifierRange.

(** X3. [containsAny] holds exactly when one of the terms occurs in the
    text, so never for an empty list of terms; and a match is kept when
    text is added before and after. *)
Theorem containsAny_iff (text : string) (terms : list string) :
  (mood.containsAny text terms = true <->
   exists term pre post,
     In term terms /\ text = pre ++ term ++ post) /\
  (forall pre post,
      mood.containsAny text terms = true ->
      mood.containsAny (pre ++ text ++ post) terms = true).
Proof.
  assert (Hiff : forall t,
             mood.containsAny t terms = true <->
             exists term pre post, In term terms /\ t = pre ++ term ++ post).
  { intros t. rewrite containsAny_existsb, existsb_exists. split.
    - intros (term & Hin & Hc). apply Contains_split in Hc.
      destruct Hc as (pre & post & E). now exists term, pre, post.
    - intros (term & pre & post & Hin & E). exists term.
      split; [exact Hin|]. apply Contains_split. now exists pre, post. }
  split; [apply Hiff|].
  intros pre post H. apply Hiff in H.
  destruct H as (term & pre' & post' & Hin & ->).
  apply Hiff. exists term, (pre ++ pre'), (post' ++ post).
  split; [exact Hin|]. now rewrite !append_assoc.
Qed.

(** ** More on the client *)

Section ClientOutcomes.

Import spotify.
Context {rt : Runtime}.

(** A run that has not lengthened the history cannot have left [req :: h]. *)
Ltac nothing_sent H :=
  simpl in H; injection H as _ H; now apply history_grows in H.

(** After the request has gone out, every path returns; the request in the
    history is the one that was sent. *)
Ltac sent_is H :=
  repeat match type of H with
         | context [match ?x with _ => _ end] => destruct x
         end;
  simpl in H; now injection H.

(** X4. When [SearchTracks] has sent its request and a response came back,
    a status other than 200 (201 too) is the error "search failed with
    status ...", and with status 200 the result is the item list of the
    decoded body, which may be empty, or the decoding error. *)
Theorem SearchTracks_status (c : Client) (query : string) (limit : Z)
        (net : Network) (h : list Request) (r : result (list Track.t))
        (req : Request) (status : Z) (body : string) :
  exec net (SearchTracks c query limit) h = (r, req :: h) ->
  net h req = Response status body ->
  (status <> 200%Z ->
   r = Err ("search failed with status " ++ fmt.Int status
              ++ ": " ++ body)) /\
  (status = 200%Z ->
   r = match json_Decode_SearchResult body with
       | Ok result => Ok (Items result)
       | Err err => Err ("failed to decode search response: " ++ err)
       end).
Proof.
  unfold SearchTracks. intros H Hnet.
  destruct (String.eqb (accessToken c) ""); [nothing_sent H|].
  cbv zeta in H.
  destruct (http_NewRequest _ _ _) as [req0|err]; [|nothing_sent H].
  cbn [bind exec] in H.
  set (sent := Header_Add _ _ req0) in H.
  assert (Hreq : sent = req) by sent_is H.
  rewrite Hreq, Hnet in H.
  split.
  - intros Hs. apply Z.eqb_neq in Hs. rewrite Hs in H.
    simpl in H. now injection H.
  - intros ->. simpl in H.
    destruct (json_Decode_SearchResult body); simpl in H; now injection H.
Qed.

(** X5. When [GetRecommendations] has sent its request and a response came
    back, a status other than 200 is an error that quotes the status, the
    body and the URL of the request, an empty body being quoted as
    "(empty response)"; with status 200 the result is the decoded track
    list or the decoding error. *)
Theorem GetRecommendations_status (c : Client)
        (seedTracks seedGenres : list string) (moodParams : list (string * Q))
        (limit : Z) (net : Network) (h : list Request)
        (r : result (list Track.t)) (req : Request) (status : Z)
        (body : string) :
  exec net (GetRecommendations c seedTracks seedGenres moodParams limit) h
  = (r, req :: h) ->
  net h req = Response status body ->
  (status <> 200%Z ->
   r = Err ("recommendations failed with status " ++ fmt.Int status ++ ": "
              ++ (if String.eqb body "" then "(empty response)" else body)
              ++ " (URL: " ++ URL req ++ ")")) /\
  (status = 200%Z ->
   r = match json_Decode_Tracks body with
       | Ok tracks => Ok tracks
       | Err err =>
           Err ("failed to decode recommendations response: " ++ err)
       end).
Proof.
  unfold GetRecommendations. intros H Hnet.
  destruct (String.eqb (accessToken c) ""); [nothing_sent H|].
  cbv zeta in H. unfold http_NewRequest in H.
  destruct (url_Parse_error _); [nothing_sent H|].
  cbn [bind exec] in H.
  match type of H with
  | context [net h ?x] => set (sent := x) in H
  end.
  assert (Hreq : sent = req) by sent_is H.
  subst req. rewrite Hnet in H.
  split.
  - intros Hs. apply Z.eqb_neq in Hs. rewrite Hs in H.
    simpl in H. now injection H.
  - intros ->. simpl in H.
    destruct (json_Decode_Tracks body); simpl in H; now injection H.
Qed.

(** X6. When [GetCurrentUser] has sent its request and a response came
    back, a status other than 200 is the error "get user failed with
    status ...", and with status 200 the result is the decoded user or the
    decoding error. *)
Theorem GetCurrentUser_status (c : Client) (net : Network)
        (h : list Request) (r : result User.t) (req : Request)
        (status : Z) (body : string) :
  exec net (GetCurrentUser c) h = (r, req :: h) ->
  net h req = Response status body ->
  (status <> 200%Z ->
   r = Err ("get user failed with status " ++ fmt.Int status
              ++ ": " ++ body)) /\
  (status = 200%Z ->
   r = match json_Decode_User body with
       | Ok user => Ok user
       | Err err => Err ("failed to decode user response: " ++ err)
       end).
Proof.
  unfold GetCurrentUser. intros H Hnet.
  destruct (String.eqb (accessToken c) ""); [nothing_sent H|].
  destruct (http_NewRequest _ _ _) as [req0|err]; [|nothing_sent H].
  cbn [bind exec] in H.
  set (sent := Header_Add _ _ req0) in H.
  assert (Hreq : sent = req) by sent_is H.
  rewrite Hreq, Hnet in H.
  split.
  - intros Hs. apply Z.eqb_neq in Hs. rewrite Hs in H.
    simpl in H. now injection H.
  - intros ->. simpl in H.
    destruct (json_Decode_User body); simpl in H; now injection H.
Qed.

(** X7. When [AddTracksToPlaylist] has sent its request and a response came
    back, the call succeeds exactly when the status is 200 or 201, whatever
    the body; any other status is the error "add tracks failed with
    status ...". *)
Theorem AddTracksToPlaylist_status (c : Client) (playlistID : string)
        (trackURIs : list string) (net : Network) (h : list Request)
        (r : option error) (req : Request) (status : Z) (body : string) :
  exec net (AddTracksToPlaylist c playlistID trackURIs) h = (r, req :: h) ->
  net h req = Response status body ->
  (status = 200%Z \/ status = 201%Z -> r = None) /\
  (status <> 200%Z /\ status <> 201%Z ->
   r = Some ("add tracks failed with status " ++ fmt.Int status
               ++ ": " ++ body)).
Proof.
  unfold AddTracksToPlaylist. intros H Hnet.
  destruct (String.eqb (accessToken c) ""); [nothing_sent H|].
  cbv zeta in H.
  destruct (json_Marshal_lists _) as [jsonData|err]; [|nothing_sent H].
  destruct (http_NewRequest _ _ _) as [req0|err]; [|nothing_sent H].
  cbn [bind exec] in H.
  set (sent := Header_Add _ _ (Header_Add _ _ req0)) in H.
  assert (Hreq : sent = req) by sent_is H.
  rewrite Hreq, Hnet in H.
  split.
  - intros [-> | ->]; simpl in H; now injection H.
  - intros [H200 H201].
    apply Z.eqb_neq in H200, H201. rewrite H200, H201 in H.
    simpl in H. now injection H.
Qed.

(** X8. When the round trip of the request fails in the transport, each
    operation returns that failure behind the name of what it was doing,
    and the history shows the one request that was tried. *)
Theorem transport_errors_surface (c : Client) (net : Network)
        (h : list Request) (req : Request) (err : error) :
  net h req = TransportError err ->
  (forall query limit r,
      exec net (SearchTracks c query limit) h = (r, req :: h) ->
      r = Err ("failed to search tracks: " ++ err)) /\
  (forall seedTracks seedGenres moodParams limit r,
      exec net (GetRecommendations c seedTracks seedGenres moodParams limit) h
      = (r, req :: h) ->
      r = Err ("failed to get recommendations: " ++ err)) /\
  (forall r,
      exec net (GetCurrentUser c) h = (r, req :: h) ->
      r = Err ("failed to get user: " ++ err)) /\
  (forall userID name description r,
      exec net (CreatePlaylist c userID name description) h = (r, req :: h) ->
      r = Err ("failed to create playlist: " ++ err)) /\
  (forall playlistID trackURIs r,
      exec net (AddTracksToPlaylist c playlistID trackURIs) h
      = (r, req :: h) ->
      r = Some ("failed to add tracks: " ++ err)).
Proof.
  intros Hnet.
  split; [|split; [|split; [|split]]].
  - intros query limit r H. unfold SearchTracks in H.
    destruct (String.eqb (accessToken c) ""); [nothing_sent H|].
    cbv zeta in H.
    destruct (http_NewRequest _ _ _) as [req0|e]; [|nothing_sent H].
    cbn [bind exec] in H. set (sent := Header_Add _ _ req0) in H.
    assert (Hreq : sent = req) by sent_is H.
    rewrite Hreq, Hnet in H. simpl in H. now injection H.
  - intros seedTracks seedGenres moodParams limit r H.
    unfold GetRecommendations in H.
    destruct (String.eqb (accessToken c) ""); [nothing_sent H|].
    cbv zeta in H.
    destruct (http_NewRequest _ _ _) as [req0|e]; [|nothing_sent H].
    cbn [bind exec] in H. set (sent := Header_Add _ _ req0) in H.
    assert (Hreq : sent = req) by sent_is H.
    rewrite Hreq, Hnet in H. simpl in H. now injection H.
  - intros r H. unfold GetCurrentUser in H.
    destruct (String.eqb (accessToken c) ""); [nothing_sent H|].
    destruct (http_NewRequest _ _ _) as [req0|e]; [|nothing_sent H].
    cbn [bind exec] in H. set (sent := Header_Add _ _ req0) in H.
    assert (Hreq : sent = req) by sent_is H.
    rewrite Hreq, Hnet in H. simpl in H. now injection H.
  - intros userID name description r H. unfold CreatePlaylist in H.
    destruct (String.eqb (accessToken c) ""); [nothing_sent H|].
    cbv zeta in H.
    destruct (json_Marshal_strings _) as [jsonData|e]; [|nothing_sent H].
    destruct (http_NewRequest _ _ _) as [req0|e]; [|nothing_sent H].
    cbn [bind exec] in H.
    set (sent := Header_Add _ _ (Header_Add _ _ req0)) in H.
    assert (Hreq : sent = req) by sent_is H.
    rewrite Hreq, Hnet in H. simpl in H. now injection H.
  - intros playlistID trackURIs r H. unfold AddTracksToPlaylist in H.
    destruct (String.eqb (accessToken c) ""); [nothing_sent H|].
    cbv zeta in H.
    destruct (json_Marshal_lists _) as [jsonData|e]; [|nothing_sent H].
    destruct (http_NewRequest _ _ _) as [req0|e]; [|nothing_sent H].
    cbn [bind exec] in H.
    set (sent := Header_Add _ _ (Header_Add _ _ req0)) in H.
    assert (Hreq : sent = req) by sent_is H.
    rewrite Hreq, Hnet in H. simpl in H. now injection H.
Qed.

End ClientOutcomes.

(** ** What goes on the wire *)

Section WireFacts.

Import spotify.

Lemma Sends_Ret (A : Type) (P : Request -> Prop) (n : nat) (a : A) :
  Wire.Sends P n (Ret a).
Proof.
  intros net h. exists []. simpl. repeat split; [lia | constructor].
Qed.

Lemma Sends_bind (A B : Type) (P : Request -> Prop) (n m : nat)
      (p : Prog A) (f : A -> Prog B) :
  Wire.Sends P n p -> (forall a, Wire.Sends P m (f a)) ->
  Wire.Sends P (n + m) (bind p f).
Proof.
  intros Hp Hf net h. rewrite exec_bind.
  destruct (Hp net h) as (sent1 & E1 & L1 & F1).
  destruct (Hf (fst (exec net p h)) net (snd (exec net p h)))
    as (sent2 & E2 & L2 & F2).
  exists (sent2 ++ sent1)%list. rewrite E2, E1.
  repeat split.
  - now rewrite app_assoc.
  - rewrite length_app. lia.
  - apply Forall_app. now split.
Qed.

Lemma Sends_more (A : Type) (P : Request -> Prop) (n m : nat) (p : Prog A) :
  (n <= m)%nat -> Wire.Sends P n p -> Wire.Sends P m p.
Proof.
  intros Hnm Hp net h. destruct (Hp net h) as (sent & E & L & F).
  exists sent. repeat split; [exact E | lia | exact F].
Qed.

(** One request, then a return on every path. *)
Lemma Sends_one (A : Type) (P : Request -> Prop) (req : Request)
      (k : RoundTrip -> Prog A) :
  P req -> (forall r, exists a, k r = Ret a) -> Wire.Sends P 1 (Do req k).
Proof.
  intros HP Hk net h. simpl. destruct (Hk (net h req)) as [a ->].
  exists [req]. simpl. repeat split; [lia | now constructor].
Qed.

Context {rt : Runtime}.

Ltac leaves :=
  intros r; simpl;
  repeat match goal with
         | |- context [match ?x with _ => _ end] => destruct x
         end;
  eexists; reflexivity.

Ltac one_request :=
  apply Sends_one; [unfold Wire.Bearer; simpl; tauto | leaves].

Lemma SearchTracks_sends (c : Client) (query : string) (limit : Z) :
  Wire.Sends (Wire.Bearer c) 1 (SearchTracks c query limit).
Proof.
  unfold SearchTracks, http_NewRequest.
  destruct (String.eqb (accessToken c) ""); [apply Sends_Ret|].
  cbv zeta. destruct (url_Parse_error _); [apply Sends_Ret|].
  cbn [bind]. one_request.
Qed.

Lemma GetRecommendations_sends (c : Client)
      (seedTracks seedGenres : list string) (moodParams : list (string * Q))
      (limit : Z) :
  Wire.Sends (Wire.Bearer c) 1
    (GetRecommendations c seedTracks seedGenres moodParams limit).
Proof.
  unfold GetRecommendations, http_NewRequest.
  destruct (String.eqb (accessToken c) ""); [apply Sends_Ret|].
  cbv zeta. destruct (url_Parse_error _); [apply Sends_Ret|].
  cbn [bind]. one_request.
Qed.

Lemma GetCurrentUser_sends (c : Client) :
  Wire.Sends (Wire.Bearer c) 1 (GetCurrentUser c).
Proof.
  unfold GetCurrentUser, http_NewRequest.
  destruct (String.eqb (accessToken c) ""); [apply Sends_Ret|].
  destruct (url_Parse_error _); [apply Sends_Ret|].
  cbn [bind]. one_request.
Qed.

Lemma CreatePlaylist_sends (c : Client) (userID name description : string) :
  Wire.Sends (Wire.Bearer c) 1 (CreatePlaylist c userID name description).
Proof.
  unfold CreatePlaylist, http_NewRequest.
  destruct (String.eqb (accessToken c) ""); [apply Sends_Ret|].
  cbv zeta. destruct (json_Marshal_strings _); [|apply Sends_Ret].
  destruct (url_Parse_error _); [apply Sends_Ret|].
  cbn [bind]. one_request.
Qed.

Lemma AddTracksToPlaylist_sends (c : Client) (playlistID : string)
      (trackURIs : list string) :
  Wire.Sends (Wire.Bearer c) 1 (AddTracksToPlaylist c playlistID trackURIs).
Proof.
  unfold AddTracksToPlaylist, http_NewRequest.
  destruct (String.eqb (accessToken c) ""); [apply Sends_Ret|].
  cbv zeta. destruct (json_Marshal_lists _); [|apply Sends_Ret].
  destruct (url_Parse_error _); [apply Sends_Ret|].
  cbn [bind]. one_request.
Qed.

(** X9. Each of the five operations makes a single attempt: on any network
    it sends at most one request, and a request it sends carries the access
    token of the client in the header "Authorization: Bearer ...". *)
Theorem operations_send_once (c : Client) :
  (forall query limit,
      Wire.Sends (Wire.Bearer c) 1 (SearchTracks c query limit)) /\
  (forall seedTracks seedGenres moodParams limit,
      Wire.Sends (Wire.Bearer c) 1
        (GetRecommendations c seedTracks seedGenres moodParams limit)) /\
  Wire.Sends (Wire.Bearer c) 1 (GetCurrentUser c) /\
  (forall userID name description,
      Wire.Sends (Wire.Bearer c) 1
        (CreatePlaylist c userID name description)) /\
  (forall playlistID trackURIs,
      Wire.Sends (Wire.Bearer c) 1
        (AddTracksToPlaylist c playlistID trackURIs)).
Proof.
  split; [intros; apply SearchTracks_sends|].
  split; [intros; apply GetRecommendations_sends|].
  split; [apply GetCurrentUser_sends|].
  split; intros; [apply CreatePlaylist_sends | apply AddTracksToPlaylist_sends].
Qed.

End WireFacts.

(** ** Start-up *)

Section StartupFacts.

Import spotify.
Context {rt : Runtime} {art : AuthRuntime}.

(** The form the token request carries: the refresh-token grant when the
    environment has a refresh token, the client-credentials grant when it
    has none. *)
Lemma Authenticate_cases (getenv : Environ) (c : Client) :
  let form :=
    if String.eqb (getenv "SPOTIFY_REFRESH_TOKEN") ""
    then [("grant_type", "client_credentials")]
    else [("grant_type", "refresh_token");
          ("refresh_token", getenv "SPOTIFY_REFRESH_TOKEN")] in
  let req :=
    {| Method := "POST"; URL := spotifyAuthURL;
       Header :=
         [("Authorization",
           "Basic " ++ base64_EncodeToString
                         (clientID c ++ ":" ++ clientSecret c));
          ("Content-Type", "application/x-www-form-urlencoded")];
       Body := Some (url_Values_Encode form) |} in
  (exists err,
      Authenticate getenv c
      = Ret (c, Some ("failed to create auth request: " ++ err))) \/
  (forall net h,
      exec net (Authenticate getenv c) h
      = (match net h req with
         | TransportError err => (c, Some ("failed to authenticate: " ++ err))
         | Response status body =>
             if (status =? 200)%Z then
               match json_Decode_object body with
               | Err err =>
                   (c, Some ("failed to decode auth response: " ++ err))
               | Ok object =>
                   match object "access_token" with
                   | None => (c, Some "access token not found in response")
                   | Some token =>
                       ({| clientID := clientID c;
                           clientSecret := clientSecret c;
                           accessToken := token |}, None)
                   end
               end
             else (c, Some ("auth failed with status " ++ fmt.Int status
                              ++ ": " ++ body))
         end, req :: h)).
Proof.
  intros form req. subst form req.
  unfold Authenticate, http_NewRequest. cbv zeta.
  destruct (String.eqb (getenv "SPOTIFY_REFRESH_TOKEN") ""); simpl negb;
    cbn [Values_Set String.eqb Ascii.eqb Bool.eqb].
  - destruct (url_Parse_error spotifyAuthURL) as [err|];
      [left; now exists err|].
    right. intros net h. cbn [bind exec Header_Add Method URL Header Body app].
    destruct (net h _) as [err|status body]; [reflexivity|].
    destruct (status =? 200)%Z; [|reflexivity]. simpl.
    destruct (json_Decode_object body) as [object|err]; [|reflexivity].
    now destruct (object "access_token").
  - destruct (url_Parse_error spotifyAuthURL) as [err|];
      [left; now exists err|].
    right. intros net h. cbn [bind exec Header_Add Method URL Header Body app].
    destruct (net h _) as [err|status body]; [reflexivity|].
    destruct (status =? 200)%Z; [|reflexivity]. simpl.
    destruct (json_Decode_object body) as [object|err]; [|reflexivity].
    now destruct (object "access_token").
Qed.

(** X10. When [Authenticate] has sent its request and a response came
    back, it succeeds exactly when the status is 200, the body decodes to an
    object and the object holds a string under "access_token"; the client
    then holds that string as its token, whatever it is (also the empty
    string).  With another status the error quotes the status and the
    body. *)
Theorem Authenticate_outcome (getenv : Environ) (c c' : Client)
        (err : option error) (net : Network) (h : list Request)
        (req : Request) (status : Z) (body : string) :
  exec net (Authenticate getenv c) h = ((c', err), req :: h) ->
  net h req = Response status body ->
  (err = None <->
   status = 200%Z /\
   exists object token,
     json_Decode_object body = Ok object /\
     object "access_token" = Some token) /\
  (err = None ->
   exists object,
     json_Decode_object body = Ok object /\
     object "access_token" = Some (accessToken c')) /\
  (status <> 200%Z ->
   err = Some ("auth failed with status " ++ fmt.Int status
                 ++ ": " ++ body)).
Proof.
  intros H Hnet.
  destruct (Authenticate_cases getenv c) as [[e E] | E].
  - rewrite E in H. simpl in H. injection H as _ _ H.
    now apply history_grows in H.
  - rewrite E in H. injection H as H Hreq. rewrite Hreq, Hnet in H.
    destruct (status =? 200)%Z eqn:S.
    + apply Z.eqb_eq in S.
      destruct (json_Decode_object body) as [object|e].
      * destruct (object "access_token") as [token|] eqn:T;
          injection H as <- <-.
        -- split; [|split].
           ++ split; [|reflexivity]. intros _. split; [exact S|].
              now exists object, token.
           ++ intros _. now exists object.
           ++ intros X. contradiction.
        -- split; [|split].
           ++ split; [discriminate|].
              intros (_ & object' & token & X & Y).
              injection X as <-. congruence.
           ++ discriminate.
           ++ intros X. contradiction.
      * injection H as <- <-. split; [|split].
        -- split; [discriminate|].
           intros (_ & object' & token & X & Y). discriminate.
        -- discriminate.
        -- intros X. contradiction.
    + apply Z.eqb_neq in S. injection H as <- <-. split; [|split].
      * split; [discriminate|]. intros [X _]. contradiction.
      * discriminate.
      * reflexivity.
Qed.

(** X11. Whatever happens, [Authenticate] leaves the client identifier and
    the client secret as they were, and when it returns an error the client
    is unchanged altogether: a failed exchange does not clear or replace a
    token the client has. *)
Theorem Authenticate_failure_keeps_client (getenv : Environ) (c c' : Client)
        (err : option error) (net : Network) (h h' : list Request) :
  exec net (Authenticate getenv c) h = ((c', err), h') ->
  clientID c' = clientID c /\
  clientSecret c' = clientSecret c /\
  (err <> None -> c' = c).
Proof.
  intros H.
  destruct (Authenticate_cases getenv c) as [[e E] | E].
  - rewrite E in H. simpl in H. injection H as <- <- _. now repeat split.
  - rewrite E in H. injection H as H _.
    destruct (net h _) as [e|status body].
    + injection H as <- <-. now repeat split.
    + destruct (status =? 200)%Z.
      * destruct (json_Decode_object body) as [object|e].
        -- destruct (object "access_token");
             injection H as <- <-; repeat split; trivial.
           intros X. contradiction.
        -- injection H as <- <-. now repeat split.
      * injection H as <- <-. now repeat split.
Qed.

(** X12. [Authenticate] sends at most one request.  It is a POST to the
    token URL with the credentials in a Basic authorization header and a
    form body, and the form asks for the refresh-token grant when the
    environment has a refresh token and for the client-credentials grant
    when it has none. *)
Theorem Authenticate_request (getenv : Environ) (c : Client) :
  let form :=
    if String.eqb (getenv "SPOTIFY_REFRESH_TOKEN") ""
    then [("grant_type", "client_credentials")]
    else [("grant_type", "refresh_token");
          ("refresh_token", getenv "SPOTIFY_REFRESH_TOKEN")] in
  Wire.Sends
    (fun req =>
       req = {| Method := "POST"; URL := spotifyAuthURL;
                Header :=
                  [("Authorization",
                    "Basic " ++ base64_EncodeToString
                                  (clientID c ++ ":" ++ clientSecret c));
                   ("Content-Type", "application/x-www-form-urlencoded")];
                Body := Some (url_Values_Encode form) |})
    1 (Authenticate getenv c).
Proof.
  intros form net h.
  destruct (Authenticate_cases getenv c) as [[e E] | E].
  - rewrite E. exists []. simpl. repeat split; [lia | constructor].
  - rewrite E. eexists [_]. simpl.
    repeat split; [lia | constructor; [reflexivity | constructor]].
Qed.

End StartupFacts.

(** X13. [LoadFromEnv] fails exactly when the client identifier or the
    client secret is missing from the environment; otherwise it gives a
    client with these two and no token, so that every operation called
    before [Authenticate] returns "not authenticated" without a request. *)
Theorem LoadFromEnv_unauthenticated (getenv : spotify.Environ) :
  (getenv "SPOTIFY_CLIENT_ID" = "" \/ getenv "SPOTIFY_CLIENT_SECRET" = "" <->
   exists err, spotify.LoadFromEnv getenv = spotify.Err err) /\
  (forall c,
      spotify.LoadFromEnv getenv = spotify.Ok c ->
      spotify.clientID c = getenv "SPOTIFY_CLIENT_ID" /\
      spotify.clientSecret c = getenv "SPOTIFY_CLIENT_SECRET" /\
      spotify.accessToken c = "" /\
      forall (rt : spotify.Runtime) query limit,
        spotify.SearchTracks c query limit
        = spotify.Ret (spotify.Err "not authenticated")).
Proof.
  unfold spotify.LoadFromEnv. cbv zeta.
  destruct (String.eqb_spec (getenv "SPOTIFY_CLIENT_ID") "") as [Ei|Ni];
    destruct (String.eqb_spec (getenv "SPOTIFY_CLIENT_SECRET") "")
      as [Es|Ns]; cbn [orb].
  1-3: split; [split; [intros _; eexists; reflexivity | tauto]
              | intros c X; discriminate X].
  split.
  - split; [tauto|]. intros [err X]. discriminate X.
  - intros c X. injection X as <-. simpl.
    split; [reflexivity|]. split; [reflexivity|]. split; [reflexivity|].
    intros rt query limit.
    now apply (@unauthenticated_returns_at_once rt).
Qed.

(** ** More on the response text *)

Section MoreResponseFacts.

Import spotify agent.

Lemma concat_app (xs ys : list string) :
  String.concat "" (xs ++ ys) = String.concat "" xs ++ String.concat "" ys.
Proof.
  induction xs as [|x xs IH]; [reflexivity|].
  change ((x :: xs) ++ ys)%list with (x :: (xs ++ ys))%list.
  now rewrite !concat_cons, IH, append_assoc.
Qed.

Lemma numbered_app (start : nat) (tracks more : list Track.t) :
  combine (seq start (length (tracks ++ more))) (tracks ++ more)
  = (combine (seq start (length tracks)) tracks
       ++ combine (seq (start + length tracks) (length more)) more)%list.
Proof.
  revert start. induction tracks as [|t tracks IH]; intros start; simpl.
  - now rewrite Nat.add_0_r.
  - now rewrite IH, Nat.add_succ_r.
Qed.

Lemma numbered_in (start : nat) (tracks : list Track.t) (track : Track.t) :
  In track tracks ->
  exists n, In (n, track) (combine (seq start (length tracks)) tracks).
Proof.
  revert start. induction tracks as [|t tracks IH]; intros start Hin.
  - contradiction.
  - destruct Hin as [-> | Hin].
    + exists start. now left.
    + destruct (IH (S start) Hin) as [n Hn]. exists n. now right.
Qed.

(** The text for a longer list starts with the text for the shorter one. *)
Lemma responseText_app (moodProfile : mood.MoodProfile)
      (tracks more : list Track.t) :
  Layout.responseText moodProfile (tracks ++ more)
  = Layout.responseText moodProfile tracks
      ++ String.concat ""
           (map Layout.trackLine
                (combine (seq (S (length tracks)) (length more)) more)).
Proof.
  unfold Layout.responseText.
  now rewrite numbered_app, map_app, concat_app, append_assoc.
Qed.

Lemma buildResponse_uris (moodProfile : mood.MoodProfile)
      (tracks : list Track.t) :
  snd (buildResponse moodProfile tracks)
  = filter (fun uri => negb (String.eqb uri "")) (map Track.URI tracks).
Proof. unfold buildResponse. now rewrite responseStep_fold. Qed.

Lemma Contains_in_concat (lines : list string) (line m : string) :
  In line lines -> strings.Contains line m = true ->
  strings.Contains (String.concat "" lines) m = true.
Proof.
  intros Hin Hm. apply in_split in Hin. destruct Hin as (l1 & l2 & ->).
  apply Contains_split in Hm. destruct Hm as (pre & post & ->).
  rewrite concat_app, concat_cons. apply Contains_split.
  exists (String.concat "" l1 ++ pre), (post ++ String.concat "" l2).
  now rewrite !append_assoc.
Qed.

Lemma Contains_after (pre s m : string) :
  strings.Contains s m = true -> strings.Contains (pre ++ s) m = true.
Proof.
  intros H. apply Contains_split in H. destruct H as (a & b & ->).
  apply Contains_split. exists (pre ++ a), b. now rewrite append_assoc.
Qed.

Lemma Contains_before (s post m : string) :
  strings.Contains s m = true -> strings.Contains (s ++ post) m = true.
Proof.
  intros H. apply Contains_split in H. destruct H as (a & b & ->).
  apply Contains_split. exists a, (b ++ post). now rewrite !append_assoc.
Qed.

Lemma Contains_here (m rest : string) :
  strings.Contains (m ++ rest) m = true.
Proof. apply (Contains_append "" m rest). Qed.

Lemma Contains_same (m : string) : strings.Contains m m = true.
Proof. rewrite <- (append_empty_r m) at 1. apply Contains_here. Qed.

(** X14. The playlist candidates are the URIs of the tracks of the response
    that are not empty, in the order of the tracks and with repetitions
    kept; a track without URI is still in the text (one line per track) but
    not among the candidates. *)
Theorem playlist_candidates (moodProfile : mood.MoodProfile)
        (tracks : list Track.t) :
  snd (buildResponse moodProfile tracks)
  = filter (fun uri => negb (String.eqb uri "")) (map Track.URI tracks) /\
  (forall uri, In uri (snd (buildResponse moodProfile tracks)) <->
               uri <> "" /\ exists track,
                              In track tracks /\ Track.URI track = uri) /\
  (length (snd (buildResponse moodProfile tracks)) <= length tracks)%nat.
Proof.
  rewrite buildResponse_uris. split; [reflexivity|]. split.
  - intros uri. rewrite filter_In, in_map_iff, negb_true_iff, String.eqb_neq.
    split.
    + intros [(track & E & Hin) Hne]. split; [exact Hne|]. now exists track.
    + intros [Hne (track & Hin & E)]. split; [|exact Hne]. now exists track.
  - etransitivity; [apply filter_length_le|]. now rewrite length_map.
Qed.

(** X15. Every track of the list is in the response with its name, with the
    artist it is shown with and with its link. *)
Theorem response_shows_track (moodProfile : mood.MoodProfile)
        (tracks : list Track.t) (track : Track.t) :
  In track tracks ->
  strings.Contains (fst (buildResponse moodProfile tracks))
                   (Track.Name track) = true /\
  strings.Contains (fst (buildResponse moodProfile tracks))
                   (artistNameOf track) = true /\
  strings.Contains (fst (buildResponse moodProfile tracks))
                   (Spotify (Track.ExternalURLs track)) = true.
Proof.
  intros Hin. rewrite buildResponse_text, artistNameOf_displayed.
  unfold Layout.responseText.
  destruct (numbered_in 1 tracks track Hin) as [n Hn].
  apply (in_map Layout.trackLine) in Hn.
  repeat split; apply Contains_after;
    apply (Contains_in_concat _ _ _ Hn);
    unfold Layout.trackLine; cbn [fst snd];
    repeat first [ apply Contains_here | apply Contains_after ].
Qed.

End MoreResponseFacts.

(** ** More on the recommend flow *)

Section MoreFlowFacts.

Import spotify agent.
Context {rt : Runtime} {unicode : strings.Unicode}.

(** The text [respond] returns starts with the text of the track list. *)
Lemma respond_text (a : MoodalystAgent) (moodProfile : mood.MoodProfile)
      (tracks : list Track.t) (net : Network) (h : list Request) :
  exists note,
    fst (fst (exec net (respond a moodProfile tracks) h))
    = Layout.responseText moodProfile tracks ++ note.
Proof.
  rewrite <- buildResponse_text.
  unfold respond, tryPlaylist.
  destruct (buildResponse moodProfile tracks) as [response trackURIs].
  cbn [fst]. rewrite exec_bind.
  destruct (fst (exec net (GetCurrentUser _) h)) as [user|e];
    [|exists ""; simpl; now rewrite append_empty_r].
  rewrite exec_bind.
  destruct (fst (exec net (CreatePlaylist _ _ _ _) _)) as [playlist|e];
    [|exists ""; simpl; now rewrite append_empty_r].
  rewrite exec_bind.
  destruct (fst (exec net (AddTracksToPlaylist _ _ _) _)).
  - exists "". simpl. now rewrite append_empty_r.
  - now exists (playlistNote playlist).
Qed.

(** After a search that found tracks, the run is a run of [respond] on
    these tracks followed by the ones that came later. *)
Lemma recommendMusic_keeps_found (a : MoodalystAgent)
      (moodDescription : string) (net : Network) (h h1 : list Request)
      (tracks : list Track.t) :
  exec net (SearchTracks (spotifyClient a)
                         (Flow.firstQuery moodDescription) 5) h
  = (Ok tracks, h1) ->
  tracks <> [] ->
  exists more h',
    exec net (recommendMusic a moodDescription) h
    = exec net (respond a (mood.AnalyzeMood moodDescription)
                        (tracks ++ more)) h'.
Proof.
  intros Hsearch Hfound. unfold Flow.firstQuery in Hsearch.
  unfold recommendMusic. cbv zeta. rewrite exec_bind, Hsearch.
  cbn [fst snd].
  destruct tracks as [|t tracks']; [contradiction|].
  cbn [length Nat.eqb]. unfold recommendFrom. cbv zeta. rewrite exec_bind.
  unfold afterRecommendations.
  destruct (exec net (GetRecommendations _ _ _ _ _) h1)
    as [[recs|e] h2]; cbn [fst snd].
  - now exists recs, h2.
  - rewrite exec_bind.
    destruct (exec net (SearchTracks _ _ _) h2)
      as [[moreTracks|e'] h3]; cbn [fst snd].
    + destruct (0 <? length moreTracks)%nat.
      * now exists moreTracks, h3.
      * exists [], h3. now rewrite app_nil_r.
    + exists [], h3. now rewrite app_nil_r.
Qed.

(** X2. The mood is "neutral" exactly when the lower-case text contains no
    keyword at all, and exactly then the profile has no search terms.
    [recommendMusic] is the search, with limit 5, for the description
    itself when the mood is "neutral" and for the search terms of the
    profile, which are not empty, otherwise, followed by the rest of the
    flow on that query. *)
Theorem AnalyzeMood_neutral_iff (a : MoodalystAgent) (d : string) :
  let moodProfile := mood.AnalyzeMood d in
  let query := if String.eqb (mood.Mood moodProfile) "neutral"
               then d else mood.SearchQueryTerms moodProfile in
  (mood.Mood moodProfile = "neutral" <->
   forall k, In k Spec.allKeywords ->
             strings.Contains (strings.ToLower d) k = false) /\
  (mood.SearchQueryTerms moodProfile = "" <->
   mood.Mood moodProfile = "neutral") /\
  (mood.Mood moodProfile <> "neutral" -> query <> "") /\
  Flow.firstQuery d = query /\
  recommendMusic a d
  = bind (SearchTracks (spotifyClient a) query 5) (fun tracks =>
     match tracks with
     | Err _ =>
         Ret ("I detected your mood as '" ++ mood.Mood moodProfile
                ++ "', but I couldn't fetch recommendations right now. "
                ++ "Try again later!", None)
     | Ok tracks =>
         if (length tracks =? 0)%nat then
           Ret ("I understand you're feeling " ++ mood.Mood moodProfile
                  ++ ", but I couldn't find any matching songs right now.",
                None)
         else recommendFrom a moodProfile query tracks
     end).
Proof.
  intros moodProfile query.
  assert (Hiff : mood.SearchQueryTerms moodProfile = "" <->
                 mood.Mood moodProfile = "neutral").
  { subst moodProfile.
    destruct (AnalyzeMood_cases d) as [[E _] | (r & Hr & _ & E)]; rewrite E.
    - split; reflexivity.
    - simpl in Hr.
      repeat (destruct Hr as [<- | Hr]; [split; discriminate|]).
      contradiction. }
  assert (Hquery : (if String.eqb (mood.SearchQueryTerms moodProfile) ""
                    then d else mood.SearchQueryTerms moodProfile) = query).
  { subst query.
    destruct (String.eqb_spec (mood.SearchQueryTerms moodProfile) "")
      as [Ht | Ht];
      destruct (String.eqb_spec (mood.Mood moodProfile) "neutral")
      as [Hm | Hm]; try reflexivity.
    - exfalso. apply Hm. now apply Hiff.
    - exfalso. apply Ht. now apply Hiff. }
  split; [|split; [exact Hiff|split; [|split]]].
  - subst moodProfile.
    destruct (AnalyzeMood_cases d) as [[E Hnone] | (r & Hr & Hm & E)];
      rewrite E.
    + split; [|reflexivity].
      intros _ k Hk. unfold Spec.allKeywords in Hk.
      apply in_flat_map in Hk. destruct Hk as (r & Hr & Hk).
      specialize (Hnone r Hr). unfold Spec.matches in Hnone.
      destruct (strings.Contains (strings.ToLower d) k) eqn:C; [|reflexivity].
      assert (X : existsb (strings.Contains (strings.ToLower d))
                          (Spec.keywords r) = true)
        by (apply existsb_exists; now exists k).
      congruence.
    + split.
      * intros X. exfalso. simpl in Hr.
        repeat (destruct Hr as [<- | Hr]; [discriminate X|]).
        contradiction.
      * intros Hnone. exfalso.
        rewrite (no_keyword_no_match _ Hr Hnone) in Hm. discriminate.
  - intros Hm. subst query.
    destruct (String.eqb_spec (mood.Mood moodProfile) "neutral") as [X | _];
      [contradiction|].
    intros Ht. apply Hm. now apply Hiff.
  - exact Hquery.
  - unfold recommendMusic. cbv zeta. fold moodProfile.
    rewrite Hquery. reflexivity.
Qed.

(** X16. When the first search fails, whatever the reason, the flow
    returns the message "I detected your mood as '...', but I couldn't
    fetch recommendations right now. Try again later!" with a [nil] error
    and sends nothing more. *)
Theorem recommendMusic_search_failed (a : MoodalystAgent)
        (moodDescription : string) (net : Network) (h h1 : list Request)
        (err : error) :
  exec net (SearchTracks (spotifyClient a)
                         (Flow.firstQuery moodDescription) 5) h
  = (Err err, h1) ->
  exec net (recommendMusic a moodDescription) h
  = (("I detected your mood as '"
        ++ mood.Mood (mood.AnalyzeMood moodDescription)
        ++ "', but I couldn't fetch recommendations right now. "
        ++ "Try again later!", None), h1).
Proof.
  intros Hsearch. unfold Flow.firstQuery in Hsearch.
  unfold recommendMusic. cbv zeta. now rewrite exec_bind, Hsearch.
Qed.

(** X17. With a client that has no token the whole flow is a bare return
    of that message: the mood is still detected and named, and no request
    is sent. *)
Theorem recommendMusic_unauthenticated (a : MoodalystAgent)
        (moodDescription : string) :
  accessToken (spotifyClient a) = "" ->
  recommendMusic a moodDescription
  = Ret ("I detected your mood as '"
           ++ mood.Mood (mood.AnalyzeMood moodDescription)
           ++ "', but I couldn't fetch recommendations right now. "
           ++ "Try again later!", None).
Proof.
  intros E. unfold recommendMusic. cbv zeta.
  destruct (unauthenticated_returns_at_once (spotifyClient a) E) as [S _].
  now rewrite S.
Qed.

(** X18. After a first search that found tracks, the recommendations are
    asked for once.  If they come, they are appended to the tracks found.
    If they fail, one more search is made, for the first query followed by
    a space and the mood label, with limit 15; its tracks are appended, and
    when it fails too or finds nothing the response is made of the tracks
    of the first search alone. *)
Theorem recommendations_or_fallback (a : MoodalystAgent)
        (moodDescription : string) (net : Network) (h h1 : list Request)
        (tracks : list Track.t) :
  let c := spotifyClient a in
  let moodProfile := mood.AnalyzeMood moodDescription in
  let query := Flow.firstQuery moodDescription in
  let seedTrackIDs := collectSeedTrackIDs tracks in
  let recommendations :=
    GetRecommendations c seedTrackIDs
                       (fillSeedGenres moodProfile seedTrackIDs)
                       (mood.GetMoodParameters moodProfile) 15 in
  let fallback :=
    SearchTracks c (query ++ " " ++ mood.Mood moodProfile) 15 in
  exec net (SearchTracks c query 5) h = (Ok tracks, h1) ->
  tracks <> [] ->
  (forall recs h2,
      exec net recommendations h1 = (Ok recs, h2) ->
      exec net (recommendMusic a moodDescription) h
      = exec net (respond a moodProfile (tracks ++ recs)) h2) /\
  (forall e h2 moreTracks h3,
      exec net recommendations h1 = (Err e, h2) ->
      exec net fallback h2 = (Ok moreTracks, h3) ->
      exec net (recommendMusic a moodDescription) h
      = exec net (respond a moodProfile (tracks ++ moreTracks)) h3) /\
  (forall e h2 e' h3,
      exec net recommendations h1 = (Err e, h2) ->
      exec net fallback h2 = (Err e', h3) ->
      exec net (recommendMusic a moodDescription) h
      = exec net (respond a moodProfile tracks) h3).
Proof.
  intros c moodProfile query seedTrackIDs recommendations fallback
         Hsearch Hfound.
  subst c moodProfile query seedTrackIDs recommendations fallback.
  unfold Flow.firstQuery in *.
  assert (Hstart :
            exec net (recommendMusic a moodDescription) h
            = exec net (recommendFrom a (mood.AnalyzeMood moodDescription)
                          (if String.eqb
                                (mood.SearchQueryTerms
                                   (mood.AnalyzeMood moodDescription)) ""
                           then moodDescription
                           else mood.SearchQueryTerms
                                  (mood.AnalyzeMood moodDescription))
                          tracks) h1).
  { unfold recommendMusic. cbv zeta. rewrite exec_bind, Hsearch.
    cbn [fst snd]. destruct tracks; [contradiction | reflexivity]. }
  rewrite Hstart. unfold recommendFrom. cbv zeta.
  split; [|split].
  - intros recs h2 Hrecs.
    change (mood.GetMoodParameters ?p) with
      [("target_energy", mood.Energy p);
       ("target_danceability", mood.Danceability p);
       ("target_valence", mood.Valence p);
       ("target_acousticness", mood.Acousticness p)] in Hrecs.
    now rewrite exec_bind, Hrecs.
  - intros e h2 moreTracks h3 Hrecs Hmore.
    change (mood.GetMoodParameters ?p) with
      [("target_energy", mood.Energy p);
       ("target_danceability", mood.Danceability p);
       ("target_valence", mood.Valence p);
       ("target_acousticness", mood.Acousticness p)] in Hrecs.
    rewrite exec_bind, Hrecs. cbn [fst snd afterRecommendations].
    rewrite exec_bind, Hmore. cbn [fst snd].
    destruct moreTracks; [now rewrite app_nil_r | reflexivity].
  - intros e h2 e' h3 Hrecs Hmore.
    change (mood.GetMoodParameters ?p) with
      [("target_energy", mood.Energy p);
       ("target_danceability", mood.Danceability p);
       ("target_valence", mood.Valence p);
       ("target_acousticness", mood.Acousticness p)] in Hrecs.
    rewrite exec_bind, Hrecs. cbn [fst snd afterRecommendations].
    now rewrite exec_bind, Hmore.
Qed.

(** X19. Whatever comes after a first search that found tracks, the text
    returned starts with the header and the lines of these tracks, numbered
    from 1 in the order of the search: later steps only add to the text. *)
Theorem found_tracks_come_first (a : MoodalystAgent)
        (moodDescription : string) (net : Network) (h h1 : list Request)
        (tracks : list Track.t) :
  exec net (SearchTracks (spotifyClient a)
                         (Flow.firstQuery moodDescription) 5) h
  = (Ok tracks, h1) ->
  tracks <> [] ->
  exists rest,
    fst (fst (exec net (recommendMusic a moodDescription) h))
    = Layout.responseText (mood.AnalyzeMood moodDescription) tracks ++ rest.
Proof.
  intros Hsearch Hfound.
  destruct (recommendMusic_keeps_found a moodDescription net h Hsearch Hfound)
    as (more & h' & ->).
  destruct (respond_text a (mood.AnalyzeMood moodDescription)
                         (tracks ++ more) net h') as [note ->].
  rewrite responseText_app, append_assoc. eexists. reflexivity.
Qed.

(** X20. Every text [recommendMusic] returns names the mood that was
    detected, on every path and on every network. *)
Theorem recommendMusic_names_mood (a : MoodalystAgent)
        (moodDescription : string) (net : Network) (h : list Request) :
  strings.Contains
    (fst (fst (exec net (recommendMusic a moodDescription) h)))
    (mood.Mood (mood.AnalyzeMood moodDescription)) = true.
Proof.
  destruct (recommendMusic_ends a moodDescription net h)
    as [[h' ->] | [[h' ->] | (tracks & h' & ->)]].
  - apply Contains_append.
  - apply Contains_append.
  - destruct (respond_text a (mood.AnalyzeMood moodDescription)
                           tracks net h') as [note ->].
    apply Contains_before. unfold Layout.responseText, Layout.header.
    apply Contains_before. apply Contains_append.
Qed.

(** X21. The seed tracks are the identifiers of all the tracks found that
    have one, in the order of the tracks: none is dropped and the list is
    never cut, however long.  Seed tracks and seed genres together are at
    most five whenever the search returned at most five tracks; with more
    than five seed tracks they are all passed, without a genre. *)
Theorem seeds_at_most_five (moodProfile : mood.MoodProfile)
        (tracks : list Track.t) :
  let seedTrackIDs := collectSeedTrackIDs tracks in
  let seedGenres := fillSeedGenres moodProfile seedTrackIDs in
  seedTrackIDs
  = filter (fun id => negb (String.eqb id "")) (map Track.ID tracks) /\
  (forall track,
      In track tracks -> Track.ID track <> "" ->
      In (Track.ID track) seedTrackIDs) /\
  (length seedTrackIDs <= length tracks)%nat /\
  (length seedTrackIDs + length seedGenres
   <= Nat.max 5 (length seedTrackIDs))%nat /\
  ((length tracks <= 5)%nat ->
   (length seedTrackIDs + length seedGenres <= 5)%nat) /\
  ((5 < length seedTrackIDs)%nat -> seedGenres = []).
Proof.
  intros seedTrackIDs seedGenres.
  assert (Hids : (length seedTrackIDs <= length tracks)%nat).
  { subst seedTrackIDs. rewrite collectSeedTrackIDs_filter.
    etransitivity; [apply filter_length_le|]. now rewrite length_map. }
  assert (Hgenres : (length seedGenres
                     = Flow.genreSeedCount
                         (length seedTrackIDs)
                         (length (mood.SuggestedGenres moodProfile)))%nat).
  { subst seedGenres. rewrite fillSeedGenres_firstn.
    apply firstn_length_le. unfold Flow.genreSeedCount.
    destruct (length seedTrackIDs <? 5)%nat; lia. }
  unfold Flow.genreSeedCount in Hgenres.
  split; [apply collectSeedTrackIDs_filter|].
  split.
  { intros track Hin Hid. subst seedTrackIDs.
    rewrite collectSeedTrackIDs_filter. apply filter_In. split.
    - now apply in_map.
    - now apply negb_true_iff, String.eqb_neq. }
  destruct (length seedTrackIDs <? 5)%nat eqn:E.
  - apply Nat.ltb_lt in E. repeat split; lia.
  - apply Nat.ltb_ge in E. repeat split; try lia.
    intros _. now apply length_zero_iff_nil.
Qed.

End MoreFlowFacts.

(** ** The requests of the flow *)

Section FlowWire.

Import spotify agent.
Context {rt : Runtime} {unicode : strings.Unicode}.

Lemma tryPlaylist_sends (a : MoodalystAgent) (moodProfile : mood.MoodProfile)
      (response : string) (trackURIs : list string) :
  Wire.Sends (Wire.Bearer (spotifyClient a)) 3
             (tryPlaylist a moodProfile response trackURIs).
Proof.
  unfold tryPlaylist.
  apply (@Sends_bind _ _ _ 1 2); [apply GetCurrentUser_sends|].
  intros [user|e]; [|apply Sends_Ret].
  apply (@Sends_bind _ _ _ 1 1); [apply CreatePlaylist_sends|].
  intros [playlist|e]; [|apply Sends_Ret].
  apply (@Sends_bind _ _ _ 1 0); [apply AddTracksToPlaylist_sends|].
  intros [e|]; apply Sends_Ret.
Qed.

Lemma respond_sends (a : MoodalystAgent) (moodProfile : mood.MoodProfile)
      (tracks : list Track.t) :
  Wire.Sends (Wire.Bearer (spotifyClient a)) 3 (respond a moodProfile tracks).
Proof.
  unfold respond. destruct (buildResponse moodProfile tracks).
  apply tryPlaylist_sends.
Qed.

Lemma recommendFrom_sends (a : MoodalystAgent)
      (moodProfile : mood.MoodProfile) (query : string)
      (tracks : list Track.t) :
  Wire.Sends (Wire.Bearer (spotifyClient a)) 5
             (recommendFrom a moodProfile query tracks).
Proof.
  unfold recommendFrom. cbv zeta.
  apply (@Sends_bind _ _ _ 1 4); [apply GetRecommendations_sends|].
  intros [recs|e]; unfold afterRecommendations.
  - apply Sends_more with 3%nat; [lia | apply respond_sends].
  - apply (@Sends_bind _ _ _ 1 3); [apply SearchTracks_sends|].
    intros [moreTracks|e']; [destruct (0 <? length moreTracks)%nat|];
      apply respond_sends.
Qed.

(** X22. One run of [recommendMusic] sends at most six requests (two
    searches, the recommendations, the user, the playlist and its tracks,
    each tried once), and every one of them carries the token of the
    client as a bearer token. *)
Theorem recommendMusic_at_most_six (a : MoodalystAgent)
        (moodDescription : string) :
  Wire.Sends (Wire.Bearer (spotifyClient a)) 6
             (recommendMusic a moodDescription).
Proof.
  unfold recommendMusic. cbv zeta.
  apply (@Sends_bind _ _ _ 1 5); [apply SearchTracks_sends|].
  intros [tracks|e]; [|apply Sends_Ret].
  destruct (length tracks =? 0)%nat; [apply Sends_Ret|].
  apply recommendFrom_sends.
Qed.

End FlowWire.

(** ** The command *)

Section TaskFacts.

Import strings.

Lemma asciiSpace_lowerByte (c : ascii) :
  asciiSpace (lowerByte c) = asciiSpace c.
Proof. destruct c as [[] [] [] [] [] [] [] []]; reflexivity. Qed.

Lemma asciiSpace_below (c : ascii) :
  asciiSpace c = true -> (nat_of_ascii c <? 128)%nat = true.
Proof. destruct c as [[] [] [] [] [] [] [] []]; trivial. Qed.

Lemma slash_lowerByte (c : ascii) :
  Ascii.eqb (lowerByte c) "/" = Ascii.eqb c "/".
Proof. destruct c as [[] [] [] [] [] [] [] []]; reflexivity. Qed.

Lemma lowerASCII_trimLeft (s : string) :
  lowerASCII (trimLeftASCII s) = trimLeftASCII (lowerASCII s).
Proof.
  induction s as [|c s IH]; [reflexivity|]. simpl.
  rewrite asciiSpace_lowerByte. now destruct (asciiSpace c).
Qed.

Lemma lowerASCII_trimRight (s : string) :
  lowerASCII (trimRightASCII s) = trimRightASCII (lowerASCII s).
Proof.
  induction s as [|c s IH]; [reflexivity|]. simpl.
  rewrite <- IH, asciiSpace_lowerByte.
  destruct (trimRightASCII s); simpl;
    [now destruct (asciiSpace c) | reflexivity].
Qed.

Lemma lowerASCII_trimSpace (s : string) :
  lowerASCII (trimSpaceASCII s) = trimSpaceASCII (lowerASCII s).
Proof.
  unfold trimSpaceASCII. now rewrite lowerASCII_trimRight, lowerASCII_trimLeft.
Qed.

Lemma lowerASCII_TrimPrefix_slash (s : string) :
  lowerASCII (TrimPrefix s "/") = TrimPrefix (lowerASCII s) "/".
Proof.
  destruct s as [|c s]; [reflexivity|].
  unfold TrimPrefix. simpl. rewrite slash_lowerByte.
  now destruct (Ascii.eqb c "/").
Qed.

(** Trimming keeps ASCII text ASCII. *)
Lemma isASCII_trimLeft (s : string) :
  isASCII s = true -> isASCII (trimLeftASCII s) = true.
Proof.
  induction s as [|c s IH]; [trivial|]. intros H. simpl.
  destruct (asciiSpace c); [|exact H].
  simpl in H. apply andb_prop in H. now apply IH.
Qed.

Lemma isASCII_trimRight (s : string) :
  isASCII s = true -> isASCII (trimRightASCII s) = true.
Proof.
  induction s as [|c s IH]; [trivial|]. intros H. simpl in *.
  apply andb_prop in H. destruct H as [Hc Hs]. specialize (IH Hs).
  destruct (trimRightASCII s).
  - destruct (asciiSpace c); [reflexivity|]. simpl. now rewrite Hc.
  - cbn [isASCII]. now rewrite Hc.
Qed.

Lemma isASCII_command (s : string) :
  isASCII s = true ->
  isASCII (TrimPrefix (trimSpaceASCII s) "/") = true.
Proof.
  intros H. unfold trimSpaceASCII, TrimPrefix.
  pose proof (isASCII_trimRight _ (isASCII_trimLeft _ H)) as T.
  destruct (trimRightASCII (trimLeftASCII s)) as [|c r]; [reflexivity|].
  simpl. destruct (Ascii.eqb c "/"); simpl; [|exact T].
  simpl in T. now apply andb_prop in T.
Qed.

Lemma isASCII_append (a b : string) :
  isASCII (a ++ b) = isASCII a && isASCII b.
Proof.
  induction a as [|c a IH]; [reflexivity|]. simpl.
  now rewrite IH, andb_assoc.
Qed.

(** White space only. *)
Lemma isASCII_blank (s : string) :
  (forall c, In c (list_ascii_of_string s) -> asciiSpace c = true) ->
  isASCII s = true.
Proof.
  induction s as [|c s IH]; intros H; [reflexivity|]. simpl.
  rewrite (asciiSpace_below c (H c (or_introl eq_refl))).
  apply IH. intros x Hx. apply H. now right.
Qed.

Lemma trimLeft_blank (s : string) :
  (forall c, In c (list_ascii_of_string s) -> asciiSpace c = true) ->
  trimLeftASCII s = "".
Proof.
  induction s as [|c s IH]; intros H; [reflexivity|]. simpl.
  rewrite (H c (or_introl eq_refl)). apply IH.
  intros x Hx. apply H. now right.
Qed.

Lemma trimLeft_after_blank (s t : string) :
  (forall c, In c (list_ascii_of_string s) -> asciiSpace c = true) ->
  trimLeftASCII (s ++ t) = trimLeftASCII t.
Proof.
  induction s as [|c s IH]; intros H; [reflexivity|]. simpl.
  rewrite (H c (or_introl eq_refl)). apply IH.
  intros x Hx. apply H. now right.
Qed.

Lemma trimRight_blank (s : string) :
  (forall c, In c (list_ascii_of_string s) -> asciiSpace c = true) ->
  trimRightASCII s = "".
Proof.
  induction s as [|c s IH]; intros H; [reflexivity|]. simpl.
  rewrite IH by (intros x Hx; apply H; now right).
  now rewrite (H c (or_introl eq_refl)).
Qed.

Lemma trimSpace_slash_blank (before after : string) :
  (forall c, In c (list_ascii_of_string before) -> asciiSpace c = true) ->
  (forall c, In c (list_ascii_of_string after) -> asciiSpace c = true) ->
  trimSpaceASCII (before ++ "/" ++ after) = "/".
Proof.
  intros Hb Ha. unfold trimSpaceASCII.
  rewrite (trimLeft_after_blank _ _ Hb). simpl.
  now rewrite (trimRight_blank _ Ha).
Qed.

End TaskFacts.

Section TaskTheorems.

Import spotify agent.
Context {rt : Runtime} {unicode : strings.Unicode}.

(** On ASCII tasks the command depends on the task through its lower-case
    form only. *)
Lemma ProcessTask_lowered (a : MoodalystAgent) (task task' : string) :
  strings.isASCII task = true -> strings.isASCII task' = true ->
  strings.lowerASCII task = strings.lowerASCII task' ->
  ProcessTask a task = ProcessTask a task'.
Proof.
  intros H H' E. unfold ProcessTask. cbv zeta.
  rewrite !strings.TrimSpace_ASCII by assumption.
  rewrite !strings.ToLower_ASCII by now apply isASCII_command.
  now rewrite !lowerASCII_TrimPrefix_slash, !lowerASCII_trimSpace, E.
Qed.

(** X23. On ASCII tasks, commands are read without regard to the case of
    letters, and so is the description that follows: an ASCII task, its
    lower-case form, its upper-case form and every text that differs from
    it in the case of letters run the same program. *)
Theorem ProcessTask_case_insensitive (a : MoodalystAgent) :
  (forall task,
      strings.isASCII task = true ->
      ProcessTask a (strings.lowerASCII task) = ProcessTask a task) /\
  (forall task,
      strings.isASCII task = true ->
      ProcessTask a (strings.upperASCII task) = ProcessTask a task) /\
  (forall task task',
      strings.isASCII task = true -> Spec.CaseVariant task task' ->
      ProcessTask a task = ProcessTask a task').
Proof.
  split; [|split].
  - intros task H. apply ProcessTask_lowered;
      [now rewrite isASCII_lowerASCII | exact H | apply lowerASCII_idem].
  - intros task H. apply ProcessTask_lowered;
      [now rewrite isASCII_upperASCII | exact H | apply lowerASCII_upperASCII].
  - intros task task' H V. apply ProcessTask_lowered;
      [exact H | now apply CaseVariant_ASCII with task
       | now apply CaseVariant_lowerASCII].
Qed.

(** X24. A task that is empty or ASCII white space only, with or without
    the leading slash, is answered "No command provided. ..." at once. *)
Theorem ProcessTask_blank (a : MoodalystAgent) (before after : string) :
  (forall c, In c (list_ascii_of_string before) ->
             strings.asciiSpace c = true) ->
  (forall c, In c (list_ascii_of_string after) ->
             strings.asciiSpace c = true) ->
  ProcessTask a before
  = Ret ("No command provided. Available commands: mood_analyzer", None) /\
  ProcessTask a (before ++ "/" ++ after)
  = Ret ("No command provided. Available commands: mood_analyzer", None).
Proof.
  intros Hb Ha. unfold ProcessTask. cbv zeta. split.
  - rewrite strings.TrimSpace_ASCII by now apply isASCII_blank.
    unfold strings.trimSpaceASCII. rewrite (trimLeft_blank _ Hb).
    change (strings.TrimPrefix (strings.trimRightASCII "") "/") with "".
    rewrite strings.ToLower_ASCII by reflexivity.
    now rewrite strings.Fields_ASCII by reflexivity.
  - rewrite strings.TrimSpace_ASCII
      by (rewrite !isASCII_append, (isASCII_blank _ Hb), (isASCII_blank _ Ha);
          reflexivity).
    rewrite (trimSpace_slash_blank _ _ Hb Ha).
    change (strings.TrimPrefix "/" "/") with "".
    rewrite strings.ToLower_ASCII by reflexivity.
    now rewrite strings.Fields_ASCII by reflexivity.
Qed.

(** X25. [ProcessTask] returns a [nil] error for every task on every
    network, sends at most six requests, all with the bearer token of the
    client, and with a client that has no token it sends none. *)
Theorem ProcessTask_never_fails (a : MoodalystAgent) (task : string) :
  (forall net h, snd (fst (exec net (ProcessTask a task) h)) = None) /\
  Wire.Sends (Wire.Bearer (spotifyClient a)) 6 (ProcessTask a task) /\
  (accessToken (spotifyClient a) = "" ->
   exists text, ProcessTask a task = Ret (text, None)).
Proof.
  unfold ProcessTask. cbv zeta.
  destruct (strings.Fields _) as [|command args].
  - split; [reflexivity|]. split; [apply Sends_Ret|].
    intros _. eexists. reflexivity.
  - destruct (String.eqb command "mood_analyzer").
    + destruct (length args =? 0)%nat.
      * split; [reflexivity|]. split; [apply Sends_Ret|].
        intros _. eexists. reflexivity.
      * split; [intros net h; apply recommendMusic_no_error|].
        split.
        { unfold recommendMusic. cbv zeta.
          apply (@Sends_bind _ _ _ 1 5); [apply SearchTracks_sends|].
          intros [tracks|e]; [|apply Sends_Ret].
          destruct (length tracks =? 0)%nat; [apply Sends_Ret|].
          apply recommendFrom_sends. }
        intros E. unfold recommendMusic. cbv zeta.
        destruct (unauthenticated_returns_at_once (spotifyClient a) E)
          as [S _].
        rewrite S. eexists. reflexivity.
    + split; [reflexivity|]. split; [apply Sends_Ret|].
      intros _. eexists. reflexivity.
Qed.

End TaskTheorems.

(** ** The theorems above on sample runs *)

Lemma SearchTracks_status_witness :
  fst (spotify.exec (Sample.scripted [spotify.Response 404 "nope"])
                    (spotify.SearchTracks Sample.loggedIn "rain" 5) [])
  = spotify.Err "search failed with status 404: nope".
Proof.
  pose proof (@SearchTracks_status Sample.runtime Sample.loggedIn "rain" 5
                (Sample.scripted [spotify.Response 404 "nope"]) []
                (fst (spotify.exec
                        (Sample.scripted [spotify.Response 404 "nope"])
                        (spotify.SearchTracks Sample.loggedIn "rain" 5) []))
                _ 404%Z "nope" eq_refl eq_refl) as [H _].
  rewrite H by discriminate. reflexivity.
Defined.

Lemma GetRecommendations_status_witness :
  fst (spotify.exec (Sample.scripted [spotify.Response 404 ""])
                    (spotify.GetRecommendations Sample.loggedIn ["a"] []
                                                [] 15) [])
  = spotify.Err
      ("recommendations failed with status 404: (empty response) (URL: "
         ++ "https://api.spotify.com/v1/recommendations?"
         ++ "seed_tracks=a&limit=15)").
Proof.
  pose proof (@GetRecommendations_status Sample.runtime Sample.loggedIn
                ["a"] [] [] 15
                (Sample.scripted [spotify.Response 404 ""]) []
                (fst (spotify.exec
                        (Sample.scripted [spotify.Response 404 ""])
                        (spotify.GetRecommendations Sample.loggedIn
                           ["a"] [] [] 15) []))
                _ 404%Z "" eq_refl eq_refl) as [H _].
  rewrite H by discriminate. reflexivity.
Defined.

Lemma GetCurrentUser_status_witness :
  fst (spotify.exec (Sample.scripted [spotify.Response 200 "me"])
                    (spotify.GetCurrentUser Sample.loggedIn) [])
  = spotify.Ok {| spotify.User.ID := "me";
                  spotify.User.DisplayName := "me" |}.
Proof.
  pose proof (@GetCurrentUser_status Sample.runtime Sample.loggedIn
                (Sample.scripted [spotify.Response 200 "me"]) []
                (fst (spotify.exec
                        (Sample.scripted [spotify.Response 200 "me"])
                        (spotify.GetCurrentUser Sample.loggedIn) []))
                _ 200%Z "me" eq_refl eq_refl) as [_ H].
  rewrite H by reflexivity. reflexivity.
Defined.

Lemma AddTracksToPlaylist_status_witness :
  fst (spotify.exec (Sample.scripted [spotify.Response 201 "not json"])
                    (spotify.AddTracksToPlaylist Sample.loggedIn "p7"
                                                 ["spotify:track:a"]) [])
  = None.
Proof.
  pose proof (@AddTracksToPlaylist_status Sample.runtime Sample.loggedIn
                "p7" ["spotify:track:a"]
                (Sample.scripted [spotify.Response 201 "not json"]) []
                (fst (spotify.exec
                        (Sample.scripted [spotify.Response 201 "not json"])
                        (spotify.AddTracksToPlaylist Sample.loggedIn "p7"
                                                     ["spotify:track:a"])
                        []))
                _ 201%Z "not json" eq_refl eq_refl) as [H _].
  rewrite H by (right; reflexivity). reflexivity.
Defined.

Lemma transport_errors_surface_witness :
  fst (spotify.exec (Sample.scripted [])
                    (spotify.GetCurrentUser Sample.loggedIn) [])
  = spotify.Err "failed to get user: connection refused".
Proof.
  destruct (@transport_errors_surface Sample.runtime Sample.loggedIn
              (Sample.scripted []) []
              {| spotify.Method := "GET";
                 spotify.URL := "https://api.spotify.com/v1/me";
                 spotify.Header := [("Authorization", "Bearer token")];
                 spotify.Body := None |}
              "connection refused" eq_refl) as (_ & _ & H & _).
  exact (H (fst (spotify.exec (Sample.scripted [])
                              (spotify.GetCurrentUser Sample.loggedIn) []))
           eq_refl).
Defined.

Lemma Authenticate_outcome_witness :
  snd (fst (spotify.exec
              (Sample.scripted [spotify.Response 200 "token=xyz"])
              (spotify.Authenticate Sample.withUser Sample.anonymous) []))
  = None.
Proof.
  pose proof (@Authenticate_outcome Sample.runtime Sample.authRuntime
                Sample.withUser Sample.anonymous
                (fst (fst (spotify.exec
                             (Sample.scripted
                                [spotify.Response 200 "token=xyz"])
                             (spotify.Authenticate Sample.withUser
                                                   Sample.anonymous) [])))
                (snd (fst (spotify.exec
                             (Sample.scripted
                                [spotify.Response 200 "token=xyz"])
                             (spotify.Authenticate Sample.withUser
                                                   Sample.anonymous) [])))
                (Sample.scripted [spotify.Response 200 "token=xyz"]) []
                _ 200%Z "token=xyz" eq_refl eq_refl) as [H _].
  apply H. split; [reflexivity|].
  eexists _, _. split; reflexivity.
Defined.

Lemma Authenticate_failure_keeps_client_witness :
  fst (fst (spotify.exec
              (Sample.scripted [spotify.Response 401 "bad client"])
              (spotify.Authenticate Sample.appOnly Sample.loggedIn) []))
  = Sample.loggedIn.
Proof.
  pose proof (@Authenticate_failure_keeps_client
                Sample.runtime Sample.authRuntime
                Sample.appOnly Sample.loggedIn
                (fst (fst (spotify.exec
                             (Sample.scripted
                                [spotify.Response 401 "bad client"])
                             (spotify.Authenticate Sample.appOnly
                                                   Sample.loggedIn) [])))
                (snd (fst (spotify.exec
                             (Sample.scripted
                                [spotify.Response 401 "bad client"])
                             (spotify.Authenticate Sample.appOnly
                                                   Sample.loggedIn) [])))
                (Sample.scripted [spotify.Response 401 "bad client"]) []
                _ eq_refl) as (_ & _ & H).
  apply H. discriminate.
Defined.

Lemma response_shows_track_witness :
  strings.Contains
    (fst (agent.buildResponse Spec.neutral
                              [Sample.trackOf "a"; Sample.trackOf "b"]))
    "Song b" = true.
Proof.
  exact (proj1 (@response_shows_track Spec.neutral
                  [Sample.trackOf "a"; Sample.trackOf "b"]
                  (Sample.trackOf "b") (or_intror (or_introl eq_refl)))).
Defined.

Lemma recommendMusic_search_failed_witness :
  fst (fst (spotify.exec (Sample.scripted [spotify.Response 500 "oops"])
                         (agent.recommendMusic Sample.bot "so sad") []))
  = "I detected your mood as 'sad', but I couldn't fetch recommendations "
      ++ "right now. Try again later!".
Proof.
  rewrite (@recommendMusic_search_failed Sample.runtime Sample.byteWise Sample.bot "so sad"
             (Sample.scripted [spotify.Response 500 "oops"]) [] _ _ eq_refl).
  reflexivity.
Defined.

Lemma recommendMusic_unauthenticated_witness :
  agent.recommendMusic
    {| agent.spotifyClient := Sample.anonymous; agent.moodAnalyzer := tt |}
    "so sad"
  = spotify.Ret
      ("I detected your mood as 'sad', but I couldn't fetch "
         ++ "recommendations right now. Try again later!", None).
Proof.
  rewrite (@recommendMusic_unauthenticated Sample.runtime Sample.byteWise
             {| agent.spotifyClient := Sample.anonymous;
                agent.moodAnalyzer := tt |} "so sad" eq_refl).
  reflexivity.
Defined.

Lemma recommendations_or_fallback_witness :
  fst (fst (spotify.exec
              (Sample.scripted [spotify.Response 200 "a";
                                spotify.Response 404 "";
                                spotify.Response 200 "c"])
              (agent.recommendMusic Sample.bot "keep calm") []))
  = Layout.responseText (mood.AnalyzeMood "keep calm")
                        [Sample.trackOf "a"; Sample.trackOf "c"].
Proof.
  destruct (@recommendations_or_fallback Sample.runtime Sample.byteWise Sample.bot
              "keep calm"
              (Sample.scripted [spotify.Response 200 "a";
                                spotify.Response 404 "";
                                spotify.Response 200 "c"])
              [] _ [Sample.trackOf "a"] eq_refl ltac:(discriminate))
    as (_ & H & _).
  rewrite (H _ _ [Sample.trackOf "c"] _ eq_refl eq_refl).
  reflexivity.
Defined.

Lemma found_tracks_come_first_witness :
  exists rest,
    fst (fst (spotify.exec
                (Sample.scripted [spotify.Response 200 "a";
                                  spotify.Response 200 "b"])
                (agent.recommendMusic Sample.bot "keep calm") []))
    = Layout.responseText (mood.AnalyzeMood "keep calm")
                          [Sample.trackOf "a"] ++ rest.
Proof.
  apply (@found_tracks_come_first Sample.runtime Sample.byteWise Sample.bot "keep calm"
           (Sample.scripted [spotify.Response 200 "a";
                             spotify.Response 200 "b"])
           [] _ [Sample.trackOf "a"] eq_refl).
  discriminate.
Defined.

Lemma seeds_at_most_five_witness :
  (length (agent.collectSeedTrackIDs
             [Sample.trackOf "a"; Sample.trackOf ""; Sample.trackOf "c"])
   + length (agent.fillSeedGenres
               (Spec.outcome Spec.relaxed)
               (agent.collectSeedTrackIDs
                  [Sample.trackOf "a"; Sample.trackOf ""; Sample.trackOf "c"]))
   <= 5)%nat.
Proof.
  destruct (@seeds_at_most_five (Spec.outcome Spec.relaxed)
              [Sample.trackOf "a"; Sample.trackOf ""; Sample.trackOf "c"])
    as (_ & _ & _ & _ & H & _).
  apply H. simpl. lia.
Defined.

Lemma ProcessTask_blank_witness :
  agent.ProcessTask Sample.bot "  / "
  = spotify.Ret
      ("No command provided. Available commands: mood_analyzer", None).
Proof.
  apply (@ProcessTask_blank Sample.runtime Sample.byteWise Sample.bot
           "  " " ").
  - intros c [<- | [<- | []]]; reflexivity.
  - intros c [<- | []]; reflexivity.
Defined.

Lemma ProcessTask_never_fails_witness :
  exists text,
    agent.ProcessTask
      {| agent.spotifyClient := Sample.anonymous; agent.moodAnalyzer := tt |}
      "/mood_analyzer feeling great"
    = spotify.Ret (text, None).
Proof.
  apply (@ProcessTask_never_fails Sample.runtime Sample.byteWise
           {| agent.spotifyClient := Sample.anonymous;
              agent.moodAnalyzer := tt |}
           "/mood_analyzer feeling great").
  reflexivity.
Defined.

Lemma ProcessTask_case_insensitive_witness :
  agent.ProcessTask Sample.bot "/MOOD_Analyzer Feeling GREAT"
  = agent.ProcessTask Sample.bot "/mood_analyzer feeling great".
Proof.
  destruct (@ProcessTask_case_insensitive Sample.runtime Sample.byteWise
              Sample.bot) as (H & _).
  rewrite <- (H "/MOOD_Analyzer Feeling GREAT" eq_refl). reflexivity.
Defined.

Lemma LoadFromEnv_unauthenticated_witness :
  spotify.LoadFromEnv Sample.appOnly = spotify.Ok Sample.anonymous /\
  spotify.accessToken Sample.anonymous = "".
Proof.
  split; [reflexivity|].
  destruct (LoadFromEnv_unauthenticated Sample.appOnly) as [_ H].
  now destruct (H Sample.anonymous eq_refl) as (_ & _ & T & _).
Defined.

Lemma containsAny_iff_witness :
  mood.containsAny ("I am " ++ "so happy" ++ " today") ["joyful"; "happy"]
  = true.
Proof.
  apply (proj2 (containsAny_iff "so happy" ["joyful"; "happy"])).
  reflexivity.
Defined.

Lemma AnalyzeMood_neutral_iff_witness :
  Flow.firstQuery "Banana bread recipe" = "Banana bread recipe" /\
  Flow.firstQuery "so sad" = "sad emotional soulful".
Proof.
  split.
  - exact (proj1 (proj2 (proj2 (proj2
             (@AnalyzeMood_neutral_iff Sample.runtime Sample.byteWise
                Sample.bot "Banana bread recipe"))))).
  - exact (proj1 (proj2 (proj2 (proj2
             (@AnalyzeMood_neutral_iff Sample.runtime Sample.byteWise
                Sample.bot "so sad"))))).
Defined.
